(** * airflow-db-cleanup: the retention cleanup DAG

    A shallow embedding of [db-cleanup/airflow_db_cleanup.py]: the
    configuration task [print_configuration_function], the cleanup task
    [cleanup_function], the DAG wiring (one configuration task, one
    downstream cleanup task per entry of [DATABASE_OBJECTS]) and the runs
    a scheduler can make along that wiring.

    Python objects the DAG file only uses are modelled as follows.
    - [datetime] is the number of microseconds since 0001-01-01T00:00:00;
      the interpreter only represents years 1 to 9999 and raises
      [OverflowError] outside that range.
    - [dag_run.conf] is a JSON payload ([pyval]) as [json.loads] builds
      it: numbers are integers or binary64 floats.
    - The tables of the metadata database are the [store]. A query on
      [SESSION] returns the matching rows in store order. [SESSION.delete]
      marks a row as deleted in the session; the DELETE statement is only
      emitted when the session is flushed or committed, which nothing in
      this file does, so the tables a task leaves are the tables it found.
    - XCom is one of those tables: [xcom_push] inserts a row for the
      run's [execution_date] (Airflow commits it in a session of its own)
      and [xcom_pull] reads the newest such row.
    - [logging] appends to the [logs] of the [world] the tasks run in. *)

From Stdlib Require Import ZArith Ascii String List Bool Lia.
From Stdlib Require Uint63 SpecFloat FloatOps.
From Stdlib Require Import PrimFloat.
From stdpp Require Import base option list gmap strings.

Local Open Scope string_scope.
Local Open Scope Z_scope.
Local Set Warnings "-register-all".

(** ** Python values and exceptions *)

(** A JSON payload as [json.loads] builds it. *)
Inductive pyval : Type :=
  | PyNone
  | PyBool (b : bool)
  | PyInt (z : Z)
  | PyFloat (f : float)
  | PyStr (s : string)
  | PyList (l : list pyval)
  | PyDict (d : gmap string pyval).

(** Python truthiness, as used by [if dag_run_conf:]. *)
Definition truthy (v : pyval) : bool :=
  match v with
  | PyNone => false
  | PyBool b => b
  | PyInt z => negb (z =? 0)
  | PyFloat f => negb (PrimFloat.eqb f PrimFloat.zero)
  | PyStr s => negb (String.eqb s "")
  | PyList l => match l with [] => false | _ => true end
  | PyDict d => negb (bool_decide (size d = 0%nat))
  end.

Inductive exn : Type :=
  | TypeError
  | ValueError
  | OverflowError
  | AttributeError
  | KeyError
  | IndexError
  | ArgumentError
  | SQLAlchemyError.

Inductive result (A : Type) : Type :=
  | Ok (a : A)
  | Raise (e : exn).
Arguments Ok {A} a.
Arguments Raise {A} e.

#[global] Instance exn_eq_dec : EqDecision exn.
Proof. solve_decision. Defined.

(** ** datetime and timedelta *)

Definition datetime := Z.

Definition MICROSECONDS_PER_DAY : Z := 86400 * 1000000.

(** [date.max.toordinal()]: 9999-12-31 is day 3652059. *)
Definition MAXORDINAL : Z := 3652059.

(** One past the largest representable datetime. *)
Definition DATETIME_LIMIT : Z := MAXORDINAL * MICROSECONDS_PER_DAY.

Definition datetime_in_range (t : Z) : bool :=
  (0 <=? t) && (t <? DATETIME_LIMIT).

(** An integer of magnitude below 2^53 as a float, exactly. *)
Definition float_of_Z (z : Z) : float :=
  if z <? 0 then PrimFloat.opp (PrimFloat.of_uint63 (Uint63.of_Z (- z)))
  else PrimFloat.of_uint63 (Uint63.of_Z z).

(** [math.modf]: the fractional part and the integer part, the latter as
    the Python integer the constructor turns it into; that conversion
    raises for NaN and the infinities. *)
Definition modf (x : float) : result (float * Z) :=
  match FloatOps.Prim2SF x with
  | SpecFloat.S754_nan => Raise ValueError
  | SpecFloat.S754_infinity _ => Raise OverflowError
  | SpecFloat.S754_zero _ => Ok (x, 0)
  | SpecFloat.S754_finite s m e =>
      let magnitude := if 0 <=? e then Z.shiftl (Z.pos m) e
                       else Z.shiftr (Z.pos m) (- e) in
      let intpart := if s then - magnitude else magnitude in
      Ok (if 0 <=? e then PrimFloat.zero else PrimFloat.sub x (float_of_Z intpart),
          intpart)
  end.

(** What is added to [x] microseconds for a left-over fraction of a
    microsecond: the nearest whole number, a tie going to the even
    total. *)
Definition round_half_even (leftover : float) (x : Z) : Z :=
  let magnitude := PrimFloat.abs leftover in
  let toward := if PrimFloat.ltb leftover PrimFloat.zero then -1 else 1 in
  if PrimFloat.ltb magnitude 0.5%float then 0
  else if PrimFloat.eqb magnitude 0.5%float then (if Z.odd x then toward else 0)
  else toward.

(** The constructor rejects more than 999999999 days either way. *)
Definition normalized (microseconds : Z) : result Z :=
  if Z.abs (microseconds / MICROSECONDS_PER_DAY) <=? 999999999
  then Ok microseconds else Raise OverflowError.

(** [timedelta(days)] for a float: the whole days are exact, the
    fraction of a day is multiplied in floating point and rounded to a
    microsecond. *)
Definition timedelta_float (days : float) : result Z :=
  match modf days with
  | Raise e => Raise e
  | Ok (fracpart, intpart) =>
      let sum := intpart * MICROSECONDS_PER_DAY in
      if PrimFloat.eqb fracpart PrimFloat.zero then normalized sum
      else
        match modf (PrimFloat.mul (float_of_Z MICROSECONDS_PER_DAY) fracpart) with
        | Raise e => Raise e
        | Ok (leftover, whole) =>
            normalized (sum + whole + round_half_even leftover (sum + whole))
        end
  end.

(** [timedelta(days)] with one positional argument, in microseconds.
    Integers (and booleans, which are integers) and floats are accepted. *)
Definition timedelta (days : pyval) : result Z :=
  match days with
  | PyInt d =>
      if Z.abs d <=? 999999999 then Ok (d * MICROSECONDS_PER_DAY)
      else Raise OverflowError
  | PyBool b => Ok ((if b then 1 else 0) * MICROSECONDS_PER_DAY)
  | PyFloat f => timedelta_float f
  | PyNone | PyStr _ | PyList _ | PyDict _ => Raise TypeError
  end.

(** [datetime.__sub__] with a timedelta. *)
Definition datetime_sub (t : datetime) (delta : Z) : result datetime :=
  if datetime_in_range (t - delta) then Ok (t - delta) else Raise OverflowError.

(** ** Strings and the id of the DAG (line 21) *)

(** [str.split(sep)] for a one-character separator. *)
Fixpoint split (sep : ascii) (s : string) : list string :=
  match s with
  | EmptyString => [EmptyString]
  | String c s' =>
      if Ascii.eqb c sep then EmptyString :: split sep s'
      else match split sep s' with
           | [] => [String c EmptyString]
           | w :: ws => String c w :: ws
           end
  end.

(** [os.path.basename] of a POSIX path: what follows the last ["/"]. *)
Definition basename (path : string) : string :=
  default EmptyString (last (split "/" path)).

(** [s.replace(old, new)] for a non-empty [old], as in both calls of line
    21: occurrences are replaced from left to right without overlap.
    [skip] counts the characters of a match still to be dropped. *)
Fixpoint replace_from (old new : string) (skip : nat) (s : string) : string :=
  match s with
  | EmptyString => EmptyString
  | String c s' =>
      match skip with
      | S k => replace_from old new k s'
      | O =>
          if String.prefix old s
          then (new ++ replace_from old new (String.length old - 1) s')%string
          else String c (replace_from old new 0 s')
      end
  end.

Definition replace (old new s : string) : string := replace_from old new 0 s.

(** [DAG_ID] as line 21 computes it from the module's [__file__]. *)
Definition DAG_ID (file : string) : string :=
  replace ".py" "" (replace ".pyc" "" (basename file)).

(** The id of the DAG this file defines. *)
Definition THIS_DAG_ID : string := DAG_ID "db-cleanup/airflow_db_cleanup.py".

(** ** Airflow models, columns and rows *)

Inductive db_model : Type :=
  | DagRun | TaskInstance | Log | XCom | BaseJob | SlaMiss.

#[global] Instance db_model_eq_dec : EqDecision db_model.
Proof. solve_decision. Defined.

(** [model.__name__] *)
Definition model_name (m : db_model) : string :=
  match m with
  | DagRun => "DagRun"
  | TaskInstance => "TaskInstance"
  | Log => "Log"
  | XCom => "XCom"
  | BaseJob => "BaseJob"
  | SlaMiss => "SlaMiss"
  end.

(** An instrumented attribute such as [DagRun.execution_date]. *)
Record column : Type := mkColumn {
  col_class : db_model;
  col_key : string
}.

#[global] Instance column_eq_dec : EqDecision column.
Proof. solve_decision. Defined.

(** [str(column)] is ["Class.key"]. *)
Definition str_column (c : column) : string :=
  (model_name (col_class c) ++ "." ++ col_key c)%string.

(** A mapped row: its class, its primary key and its [__dict__] of
    loaded column values, the datetime columns ([None] is SQL NULL; the
    pickled [value] of an XCom row that holds a datetime is among them)
    and the text columns. *)
Record entry : Type := mkEntry {
  entry_model : db_model;
  entry_id : Z;
  entry_dict : gmap string (option datetime);
  entry_text : gmap string string
}.

#[global] Instance entry_eq_dec : EqDecision entry.
Proof. solve_decision. Defined.

(** One item of [DATABASE_OBJECTS]; it is also the [params] of a
    cleanup task. *)
Record db_object : Type := mkDbObject {
  airflow_db_model : db_model;
  age_check_column : column
}.

#[global] Instance db_object_eq_dec : EqDecision db_object.
Proof. solve_decision. Defined.

Definition DEFAULT_MAX_DB_ENTRY_AGE_IN_DAYS : Z := 30.

(** The value the file ships with. *)
Definition ENABLE_DELETE : bool := true.

Definition DATABASE_OBJECTS : list db_object :=
  [ mkDbObject DagRun (mkColumn DagRun "execution_date");
    mkDbObject TaskInstance (mkColumn TaskInstance "execution_date");
    mkDbObject Log (mkColumn Log "dttm");
    mkDbObject XCom (mkColumn XCom "execution_date");
    mkDbObject BaseJob (mkColumn BaseJob "latest_heartbeat");
    mkDbObject SlaMiss (mkColumn SlaMiss "execution_date") ].

(** ** The world a task runs in *)

(** What a log line prints with [str(...)]. *)
Inductive pyobj : Type :=
  | OVal (v : pyval)
  | ODatetime (d : option datetime)
  | OName (s : string)
  | OSession
  | OModel (m : db_model)
  | OColumn (c : column)
  | OEntry (e : entry).

(** A message is the concatenation of literals and [str(...)] calls. *)
Inductive piece : Type :=
  | Lit (s : string)
  | Str (o : pyobj).

Inductive level : Type := INFO | WARNING.

Record log_record : Type := mkLog {
  log_level : level;
  log_message : list piece
}.

(** Calls made on [SESSION]. *)
Inductive session_call : Type :=
  | CallQuery (m : db_model) (c : column) (max_date : option datetime)
  | CallDelete (e : entry).

(** The tables, the calls [SESSION] has received, the log, and the
    [execution_date] of the DagRun the task instances belong to. *)
Record world : Type := mkWorld {
  store : list entry;
  calls : list session_call;
  logs : list log_record;
  execution_date : datetime
}.

(** A task body: it changes the world and returns or raises. What it did
    before raising stays done. *)
Definition M (A : Type) : Type := world -> world * result A.

Definition ret {A} (a : A) : M A := fun w => (w, Ok a).

Definition bind {A B} (m : M A) (k : A -> M B) : M B :=
  fun w => match m w with
           | (w', Ok a) => k a w'
           | (w', Raise e) => (w', Raise e)
           end.

Definition lift {A} (r : result A) : M A := fun w => (w, r).

#[global] Instance M_ret : MRet M := @ret.
#[global] Instance M_bind : MBind M := fun A B k m => bind m k.

(** [for x in xs: body(x)] *)
Fixpoint for_each {A} (xs : list A) (body : A -> M unit) : M unit :=
  match xs with
  | [] => ret tt
  | x :: xs' => body x;; for_each xs' body
  end.

Definition logging_info (msg : list piece) : M unit :=
  fun w => (mkWorld (store w) (calls w) (logs w ++ [mkLog INFO msg])
                    (execution_date w), Ok tt).

Definition logging_warn (msg : list piece) : M unit :=
  fun w => (mkWorld (store w) (calls w) (logs w ++ [mkLog WARNING msg])
                    (execution_date w), Ok tt).

(** *** XCom *)

(** The primary key the database gives the next row of a table. *)
Definition next_id (m : db_model) (rows : list entry) : Z :=
  1 + fold_right Z.max 0
        (map entry_id (filter (fun e => entry_model e = m) rows)).

(** The row [xcom_push] inserts. *)
Definition xcom_row (rows : list entry) (execution_date : datetime)
    (task_id key : string) (value : datetime) : entry :=
  mkEntry XCom (next_id XCom rows)
    {[ "execution_date" := Some execution_date; "value" := Some value ]}
    {[ "dag_id" := THIS_DAG_ID; "task_id" := task_id; "key" := key ]}.

(** The rows [xcom_pull] looks among. *)
Definition xcom_matches (execution_date : datetime) (task_id key : string)
    (e : entry) : bool :=
  bool_decide (entry_model e = XCom) &&
  bool_decide (entry_text e !! "dag_id" = Some THIS_DAG_ID) &&
  bool_decide (entry_text e !! "task_id" = Some task_id) &&
  bool_decide (entry_text e !! "key" = Some key) &&
  bool_decide (entry_dict e !! "execution_date" = Some (Some execution_date)).

(** The value of the newest matching row, [None] when there is none. *)
Definition xcom_get_one (rows : list entry) (execution_date : datetime)
    (task_id key : string) : option datetime :=
  match last (filter (fun e => xcom_matches execution_date task_id key e = true) rows) with
  | Some e => default None (entry_dict e !! "value")
  | None => None
  end.

(** [ti.xcom_push(key, value)] from the task [task_id]: a new row of the
    run. (A row of the same run, task and key left by an earlier push
    would be replaced; it is kept here, and [xcom_pull] reads the newest
    row. In a run the configuration task pushes once.) *)
Definition xcom_push (task_id key : string) (value : datetime) : M unit :=
  fun w => (mkWorld (store w ++ [xcom_row (store w) (execution_date w) task_id key value])
                    (calls w) (logs w) (execution_date w), Ok tt).

(** [ti.xcom_pull(task_ids, key)]: [None] when nothing was pushed. *)
Definition xcom_pull (task_ids key : string) : M (option datetime) :=
  fun w => (w, Ok (xcom_get_one (store w) (execution_date w) task_ids key)).

(** *** The session *)

(** The SQL predicate [column <= max_date] on a row; a NULL in the row
    is not a match. *)
Definition age_le (c : column) (max_date : datetime) (e : entry) : bool :=
  match entry_dict e !! col_key c with
  | Some (Some t) => t <=? max_date
  | _ => false
  end.

Definition candidate (m : db_model) (c : column) (max_date : datetime)
    (e : entry) : bool :=
  bool_decide (entry_model e = m) && age_le c max_date e.

(** [SESSION.query(model).filter(column <= max_date).all()]. The
    comparison of a column with [None] raises [ArgumentError] while the
    filter is built, before any query is issued. *)
Definition session_query (m : db_model) (c : column) (max_date : option datetime)
    : M (list entry) :=
  match max_date with
  | None => lift (Raise ArgumentError)
  | Some d =>
      fun w => (mkWorld (store w) (calls w ++ [CallQuery m c (Some d)]) (logs w)
                        (execution_date w),
                Ok (filter (fun e => candidate m c d e = true) (store w)))
  end.

(** [d[key]] *)
Definition getitem {V} (d : gmap string V) (key : string) : result V :=
  match d !! key with
  | Some v => Ok v
  | None => Raise KeyError
  end.

(** [l[i]] *)
Definition index {V} (l : list V) (i : nat) : result V :=
  match l !! i with
  | Some v => Ok v
  | None => Raise IndexError
  end.

(** [dag_run_conf.get(key, None)]: only a dict has [get]. *)
Definition conf_get (conf : pyval) (key : string) : result pyval :=
  match conf with
  | PyDict d => Ok (default PyNone (d !! key))
  | _ => Raise AttributeError
  end.

Definition PRINT_CONFIGURATION_task_id : string := "print_configuration".

(** ** The two task callables *)

Section Tasks.

(** On which rows [SESSION.delete] raises: the environment's choice. *)
Variable delete_raises : entry -> bool.

(** The module-level switch [ENABLE_DELETE]; the file ships with [True]
    and the operator edits it to skip deletion. *)
Variable enable_delete : bool.

(** The callable of the [print_configuration] task; [now] is what
    [datetime.now()] returns on line 93. *)
Definition print_configuration_function (dag_run_conf : pyval) (now : datetime)
    : M unit :=
  logging_info [Lit "Loading Configurations..."];;
  logging_info [Lit "dag_run.conf: "; Str (OVal dag_run_conf)];;
  conf_value ← (if truthy dag_run_conf
                then lift (conf_get dag_run_conf "maxDBEntryAgeInDays")
                else mret PyNone);
  logging_info [Lit "maxDBEntryAgeInDays from dag_run.conf: ";
                Str (OVal dag_run_conf)];;
  max_db_entry_age_in_days ←
    match conf_value with
    | PyNone =>
        logging_info [Lit "maxDBEntryAgeInDays conf variable isn't included. Using Default '";
                      Str (OVal (PyInt DEFAULT_MAX_DB_ENTRY_AGE_IN_DAYS)); Lit "'"];;
        mret (PyInt DEFAULT_MAX_DB_ENTRY_AGE_IN_DAYS)
    | v => mret v
    end;
  delta ← lift (timedelta max_db_entry_age_in_days);
  max_date ← lift (datetime_sub now delta);
  logging_info [Lit "Finished Loading Configurations"];;
  logging_info [Lit ""];;
  logging_info [Lit "Configurations:"];;
  logging_info [Lit "max_db_entry_age_in_days: "; Str (OVal max_db_entry_age_in_days)];;
  logging_info [Lit "max_date:                 "; Str (ODatetime (Some max_date))];;
  logging_info [Lit "enable_delete:            "; Str (OVal (PyBool enable_delete))];;
  logging_info [Lit "session:                  "; Str OSession];;
  logging_info [Lit ""];;
  logging_info [Lit "Setting max_execution_date to XCom for Downstream Processes"];;
  xcom_push PRINT_CONFIGURATION_task_id "max_date" max_date.

(** [SESSION.delete(entry)]: the row is marked as deleted in the session,
    or the call raises; the table keeps the row either way. *)
Definition session_delete (e : entry) : M unit :=
  fun w => (mkWorld (store w) (calls w ++ [CallDelete e]) (logs w) (execution_date w),
            if delete_raises e then Raise SQLAlchemyError else Ok tt).

(** Lines 135-136: one report line for a candidate. *)
Definition report_entry (age_check_column : column) (e : entry) : M unit :=
  key ← lift (index (split "." (str_column age_check_column)) 1);
  date ← lift (getitem (entry_dict e) key);
  logging_info [Lit "	Entry: "; Str (OEntry e); Lit ", Date: "; Str (ODatetime date)].

(** The callable of a cleanup task whose [params] is one item of [DATABASE_OBJECTS]. *)
Definition cleanup_function (params : db_object) : M unit :=
  logging_info [Lit "Retrieving max_execution_date from XCom"];;
  max_date ← xcom_pull PRINT_CONFIGURATION_task_id "max_date";
  let airflow_db_model := airflow_db_model params in
  let age_check_column := age_check_column params in
  logging_info [Lit "Configurations:"];;
  logging_info [Lit "max_date:                 "; Str (ODatetime max_date)];;
  logging_info [Lit "enable_delete:            "; Str (OVal (PyBool enable_delete))];;
  logging_info [Lit "session:                  "; Str OSession];;
  logging_info [Lit "airflow_db_model:         "; Str (OModel airflow_db_model)];;
  logging_info [Lit "age_check_column:         "; Str (OColumn age_check_column)];;
  logging_info [Lit ""];;
  logging_info [Lit "Running Cleanup Process..."];;
  entries_to_delete ← session_query airflow_db_model age_check_column max_date;
  logging_info [Lit "Process will be Deleting the following ";
                Str (OName (model_name airflow_db_model)); Lit "(s):"];;
  for_each entries_to_delete (report_entry age_check_column);;
  logging_info [Lit "Process will be Deleting ";
                Str (OVal (PyInt (Z.of_nat (length entries_to_delete))));
                Lit " "; Str (OName (model_name airflow_db_model)); Lit "(s)"];;
  (if enable_delete
   then logging_info [Lit "Performing Delete..."];;
        for_each entries_to_delete session_delete;;
        logging_info [Lit "Finished Performing Delete"]
   else logging_warn [Lit "You're opted to skip deleting the db entries!!!"]);;
  logging_info [Lit "Finished Running Cleanup Process"].

End Tasks.

(** ** The wiring of the DAG (lines 151-165) *)

(** The [task_id] the loop gives the cleanup task of a registry item. *)
Definition cleanup_task_id (db_object : db_object) : string :=
  ("cleanup_" ++ model_name (airflow_db_model db_object))%string.

(** What a [PythonOperator] of this DAG calls. *)
Inductive python_callable : Type :=
  | PrintConfiguration
  | Cleanup (params : db_object).

Record PythonOperator : Type := mkOperator {
  task_id : string;
  callable : python_callable
}.

Definition PRINT_CONFIGURATION_OPR : PythonOperator :=
  mkOperator PRINT_CONFIGURATION_task_id PrintConfiguration.

(** The operators of the DAG and the edges [set_downstream] adds, as
    (upstream id, downstream id). *)
Record DAG : Type := mkDAG {
  dag_tasks : list PythonOperator;
  dag_edges : list (string * string)
}.

(** The loop of lines 157-165 over a registry. *)
Definition wire (registry : list db_object) : DAG :=
  fold_left
    (fun dag db_object =>
       let cleanup := mkOperator (cleanup_task_id db_object) (Cleanup db_object) in
       mkDAG (dag_tasks dag ++ [cleanup])
             (dag_edges dag ++ [(task_id PRINT_CONFIGURATION_OPR, task_id cleanup)]))
    registry
    (mkDAG [PRINT_CONFIGURATION_OPR] []).

Definition DAG_OBJ : DAG := wire DATABASE_OBJECTS.

(** ** One DagRun: task instances run along the edges of the DAG *)

(** [DEFAULT_ARGS['retries']] *)
Definition RETRIES : nat := 1.

(** The tasks [set_downstream] put upstream of [task]. *)
Definition upstream_task_ids (dag : DAG) (task : string) : list string :=
  map fst (filter (fun edge => snd edge = task) (dag_edges dag)).

(** The task instances of a run: the world they have made, the tasks in
    state success, and one occurrence of a task per try that failed. *)
Record dag_run_state : Type := mkRun {
  run_world : world;
  succeeded : list string;
  failures : list string
}.

(** A task instance is run when each of its upstream tasks succeeded
    (the default trigger rule); it is not run again once it succeeded,
    nor after it failed on its first try and on [RETRIES] more. *)
Definition runnable (dag : DAG) (st : dag_run_state) (task : string) : bool :=
  forallb (fun up => bool_decide (up ∈ succeeded st)) (upstream_task_ids dag task)
  && negb (bool_decide (task ∈ succeeded st))
  && (length (filter (fun t => t = task) (failures st)) <=? RETRIES)%nat.

Section Runs.

Variable delete_raises : entry -> bool.
Variable enable_delete : bool.

(** What an operator executes; [now] is what the clock of its process
    reads. *)
Definition execute (op : PythonOperator) (dag_run_conf : pyval) (now : datetime)
    : M unit :=
  match callable op with
  | PrintConfiguration => print_configuration_function enable_delete dag_run_conf now
  | Cleanup params => cleanup_function delete_raises enable_delete params
  end.

(** One try the scheduler asks for: a task id and the clock of the
    process. A task instance that may not run is not started. A try runs
    to its end before the next one starts: task instances only meet in
    the tables. *)
Definition try_task (dag : DAG) (dag_run_conf : pyval) (st : dag_run_state)
    (try : string * datetime) : dag_run_state :=
  match find (fun op => String.eqb (task_id op) (fst try)) (dag_tasks dag) with
  | Some op =>
      if runnable dag st (task_id op)
      then match execute op dag_run_conf (snd try) (run_world st) with
           | (w', Ok _) => mkRun w' (task_id op :: succeeded st) (failures st)
           | (w', Raise _) => mkRun w' (succeeded st) (task_id op :: failures st)
           end
      else st
  | None => st
  end.

(** The tries of a run, in the order the scheduler makes them. *)
Definition run_from (dag : DAG) (dag_run_conf : pyval)
    (tries : list (string * datetime)) (st : dag_run_state) : dag_run_state :=
  fold_left (try_task dag dag_run_conf) tries st.

(** One DagRun over the tables and the log of [w]. *)
Definition dag_run (dag : DAG) (dag_run_conf : pyval)
    (tries : list (string * datetime)) (w : world) : dag_run_state :=
  run_from dag dag_run_conf tries (mkRun w [] []).

End Runs.

(** ** Observations the statements are written with *)

(** No ["."] in an attribute name. *)
Fixpoint dotless (s : string) : bool :=
  match s with
  | EmptyString => true
  | String c s' => negb (Ascii.eqb c ".") && dotless s'
  end.

(** No ["/"] in a file name. *)
Fixpoint slashless (s : string) : bool :=
  match s with
  | EmptyString => true
  | String c s' => negb (Ascii.eqb c "/") && slashless s'
  end.

(** The candidates of a cleanup task in given tables: the rows its query
    returns; there is no query without a cutoff. *)
Definition candidates (params : db_object) (max_date : option datetime)
    (rows : list entry) : list entry :=
  match max_date with
  | Some d =>
      filter (fun e => candidate (airflow_db_model params) (age_check_column params)
                                 d e = true) rows
  | None => []
  end.

(** The report line of lines 135-136 for a loaded row. *)
Definition report_line (c : column) (e : entry) : log_record :=
  mkLog INFO [Lit "	Entry: "; Str (OEntry e); Lit ", Date: ";
              Str (ODatetime (default None (entry_dict e !! col_key c)))].

(** The row a log line reports as a candidate, when it is such a line. *)
Definition reported_entry (l : log_record) : option entry :=
  match log_message l with
  | [Lit _; Str (OEntry e); Lit _; Str (ODatetime _)] => Some e
  | _ => None
  end.

(** The rows a log reports as candidates. *)
Definition reported_entries (ls : list log_record) : list entry :=
  omap reported_entry ls.

(** The rows [SESSION.delete] was called on, in call order. *)
Definition delete_calls (cs : list session_call) : list entry :=
  omap (fun c => match c with CallDelete e => Some e | CallQuery _ _ _ => None end) cs.

(** The queries issued on [SESSION], in call order. *)
Definition query_calls (cs : list session_call)
    : list (db_model * column * option datetime) :=
  omap (fun c => match c with
                 | CallQuery m col d => Some (m, col, d)
                 | CallDelete _ => None
                 end) cs.

#[global] Instance level_eq_dec : EqDecision level.
Proof. solve_decision. Defined.

(** The WARNING lines of a log. *)
Definition warnings (ls : list log_record) : list log_record :=
  filter (fun l => log_level l = WARNING) ls.

(** What a cleanup task logs before it builds its query. *)
Definition cleanup_preamble (enable_delete : bool) (params : db_object)
    (max_date : option datetime) : list log_record :=
  [ mkLog INFO [Lit "Retrieving max_execution_date from XCom"];
    mkLog INFO [Lit "Configurations:"];
    mkLog INFO [Lit "max_date:                 "; Str (ODatetime max_date)];
    mkLog INFO [Lit "enable_delete:            "; Str (OVal (PyBool enable_delete))];
    mkLog INFO [Lit "session:                  "; Str OSession];
    mkLog INFO [Lit "airflow_db_model:         "; Str (OModel (airflow_db_model params))];
    mkLog INFO [Lit "age_check_column:         "; Str (OColumn (age_check_column params))];
    mkLog INFO [Lit ""];
    mkLog INFO [Lit "Running Cleanup Process..."] ].

(** What a cleanup task logs before it looks at [ENABLE_DELETE]. *)
Definition cleanup_report (enable_delete : bool) (params : db_object)
    (max_date : option datetime) (entries_to_delete : list entry)
    : list log_record :=
  cleanup_preamble enable_delete params max_date
  ++ [ mkLog INFO [Lit "Process will be Deleting the following ";
                   Str (OName (model_name (airflow_db_model params))); Lit "(s):"] ]
  ++ map (report_line (age_check_column params)) entries_to_delete
  ++ [ mkLog INFO [Lit "Process will be Deleting ";
                   Str (OVal (PyInt (Z.of_nat (length entries_to_delete))));
                   Lit " "; Str (OName (model_name (airflow_db_model params)));
                   Lit "(s)"] ].

(** What [xcom_pull] hands to a cleanup task in a given world. *)
Definition pulled_max_date (w : world) : option datetime :=
  xcom_get_one (store w) (execution_date w) PRINT_CONFIGURATION_task_id "max_date".

(** The row the configuration task of the run of [w] inserts when it
    publishes [cutoff]. *)
Definition max_date_row (w : world) (cutoff : datetime) : entry :=
  xcom_row (store w) (execution_date w) PRINT_CONFIGURATION_task_id "max_date" cutoff.

(** The age the configuration task ends up using for a value read from
    the conf (lines 89-92). *)
Definition effective_age (conf_value : pyval) : pyval :=
  match conf_value with
  | PyNone => PyInt DEFAULT_MAX_DB_ENTRY_AGE_IN_DAYS
  | v => v
  end.

(** What the configuration task logs when it completes. *)
Definition configuration_log (enable_delete : bool) (dag_run_conf conf_value : pyval)
    (max_date : datetime) : list log_record :=
  [ mkLog INFO [Lit "Loading Configurations..."];
    mkLog INFO [Lit "dag_run.conf: "; Str (OVal dag_run_conf)];
    mkLog INFO [Lit "maxDBEntryAgeInDays from dag_run.conf: ";
                Str (OVal dag_run_conf)] ]
  ++ match conf_value with
     | PyNone =>
         [ mkLog INFO [Lit "maxDBEntryAgeInDays conf variable isn't included. Using Default '";
                       Str (OVal (PyInt DEFAULT_MAX_DB_ENTRY_AGE_IN_DAYS)); Lit "'"] ]
     | _ => []
     end
  ++ [ mkLog INFO [Lit "Finished Loading Configurations"];
       mkLog INFO [Lit ""];
       mkLog INFO [Lit "Configurations:"];
       mkLog INFO [Lit "max_db_entry_age_in_days: "; Str (OVal (effective_age conf_value))];
       mkLog INFO [Lit "max_date:                 "; Str (ODatetime (Some max_date))];
       mkLog INFO [Lit "enable_delete:            "; Str (OVal (PyBool enable_delete))];
       mkLog INFO [Lit "session:                  "; Str OSession];
       mkLog INFO [Lit ""];
       mkLog INFO [Lit "Setting max_execution_date to XCom for Downstream Processes"] ].

(** The value line 86 reads from the conf. *)
Definition conf_value_of (dag_run_conf : pyval) : result pyval :=
  if truthy dag_run_conf then conf_get dag_run_conf "maxDBEntryAgeInDays"
  else Ok PyNone.

(** [n] whole days, in microseconds. *)
Definition days (n : Z) : Z := n * MICROSECONDS_PER_DAY.

(** A JSON number. *)
Definition is_number (v : pyval) : bool :=
  match v with
  | PyInt _ | PyFloat _ => true
  | _ => false
  end.

(** What a task added to the log and to the calls on [SESSION], given the
    world before and after. *)
Definition new_logs (w w' : world) : list log_record :=
  drop (length (logs w)) (logs w').

Definition new_calls (w w' : world) : list session_call :=
  drop (length (calls w)) (calls w').

(** The configuration task completes and publishes [cutoff]. *)
Definition publishes (enable_delete : bool) (dag_run_conf : pyval) (now : datetime)
    (w : world) (cutoff : datetime) : Prop :=
  snd (print_configuration_function enable_delete dag_run_conf now w) = Ok tt /\
  pulled_max_date (fst (print_configuration_function enable_delete dag_run_conf now w))
    = Some cutoff.

(** A conf that carries [value] under the recognised key. *)
Definition conf_with (value : pyval) : pyval :=
  PyDict {[ "maxDBEntryAgeInDays" := value ]}.

(** The override is absent: no conf, an empty conf, a conf without the
    key, or a null under the key. *)
Definition override_absent (dag_run_conf : pyval) : Prop :=
  truthy dag_run_conf = false \/
  exists d, dag_run_conf = PyDict d /\
            (d !! "maxDBEntryAgeInDays" = None \/
             d !! "maxDBEntryAgeInDays" = Some PyNone).



(** ** Sample data: the first scenario of the specification *)

(** 2024-06-01T00:00:00, day 739037 since 0001-01-01. *)
Definition june_2024 : datetime := days 739037.

(** A row of [Log] with its [dttm] at midnight of day [d]. *)
Definition log_row (id d : Z) : entry :=
  mkEntry Log id {[ "dttm" := Some (days d) ]} ∅.

(** Three rows dated 2024-04-01, 2024-05-15 and 2024-06-01. *)
Definition scenario_rows : list entry :=
  [log_row 1 738976; log_row 2 739020; log_row 3 739037].

Definition LOG_OBJECT : db_object := mkDbObject Log (mkColumn Log "dttm").

Definition XCOM_OBJECT : db_object := mkDbObject XCom (mkColumn XCom "execution_date").

(** The world of the daily run for 2024-05-31, which the scheduler
    starts on 2024-06-01: the given rows, nothing logged and nothing
    published. *)
Definition fresh_world (rows : list entry) : world :=
  mkWorld rows [] [] (days 739036).

(** Every call of [SESSION.delete] returns. *)
Definition never_raises (e : entry) : bool := false.

(** [SESSION.delete] raises on the row with primary key [id]. *)
Definition raises_on (id : Z) (e : entry) : bool := entry_id e =? id.

(** The three sample rows once an override of 0 on 2024-06-01 is
    published: every row is a candidate. *)
Definition all_candidates_world : world :=
  fst (print_configuration_function true (conf_with (PyInt 0)) june_2024
         (fresh_world scenario_rows)).

(** The sample rows once a scheduled run on 2024-06-01 has published its
    cutoff, 2024-05-02. *)
Definition scheduled_world : world :=
  fst (print_configuration_function true PyNone june_2024
         (fresh_world scenario_rows)).

(** A schedule: the configuration task, then the [Log] and the [XCom]
    cleanup tasks, the clock at 2024-06-01. *)
Definition sample_tries : list (string * datetime) :=
  [ (PRINT_CONFIGURATION_task_id, june_2024);
    ("cleanup_Log", june_2024);
    ("cleanup_XCom", june_2024) ].

(** * Properties *)

Local Close Scope string_scope.

(** ** Strings *)

Lemma split_dotless (s : string) :
  dotless s = true -> split "." s = [s].
Proof.
  induction s as [|c s IH]; simpl; [reflexivity|].
  intros H. apply andb_prop in H as [Hc Hs].
  apply negb_true_iff in Hc. rewrite Hc, (IH Hs). reflexivity.
Qed.

Lemma split_prefix_dotless (a b : string) :
  dotless a = true -> split "." (a ++ "." ++ b)%string = a :: split "." b.
Proof.
  induction a as [|c a IH]; simpl; [reflexivity|].
  intros H. apply andb_prop in H as [Hc Ha].
  apply negb_true_iff in Hc. rewrite Hc, (IH Ha). reflexivity.
Qed.

Lemma model_name_dotless (m : db_model) : dotless (model_name m) = true.
Proof. destruct m; reflexivity. Qed.

(** [str(age_check_column).split(".")[1]] is the attribute name. *)
Lemma report_key_ok (c : column) :
  dotless (col_key c) = true ->
  index (split "." (str_column c)) 1 = Ok (col_key c).
Proof.
  intros H. unfold str_column.
  rewrite split_prefix_dotless by apply model_name_dotless.
  rewrite (split_dotless _ H). reflexivity.
Qed.

(** ** XCom: what is pushed is what is pulled *)

Lemma xcom_row_matches (rows : list entry) (ed : datetime) (task key : string)
    (value : datetime) :
  xcom_matches ed task key (xcom_row rows ed task key value) = true.
Proof.
  unfold xcom_matches, xcom_row. cbn [entry_model entry_text entry_dict].
  rewrite !andb_true_iff, !bool_decide_eq_true.
  repeat split.
Qed.

Lemma xcom_row_value (rows : list entry) (ed : datetime) (task key : string)
    (value : datetime) :
  entry_dict (xcom_row rows ed task key value) !! "value"%string = Some (Some value).
Proof.
  unfold xcom_row. cbn [entry_dict].
  rewrite lookup_insert_ne by discriminate. apply lookup_singleton_eq.
Qed.

(** [xcom_pull] returns the value of the row pushed last. *)
Lemma xcom_get_one_pushed (rows rows' : list entry) (ed : datetime)
    (task key : string) (value : datetime) :
  xcom_get_one (rows ++ [xcom_row rows' ed task key value]) ed task key = Some value.
Proof.
  unfold xcom_get_one. rewrite filter_app.
  rewrite (filter_cons_True _ (xcom_row rows' ed task key value))
    by apply xcom_row_matches.
  rewrite filter_nil, last_snoc.
  exact (f_equal (default None) (xcom_row_value rows' ed task key value)).
Qed.

(** ** The loops of the cleanup task *)

Lemma candidates_loaded (p : db_object) (d : option datetime) (rows : list entry) :
  Forall (fun e => is_Some (entry_dict e !! col_key (age_check_column p)))
         (candidates p d rows).
Proof.
  destruct d as [d|]; [|constructor].
  apply Forall_forall. intros e He.
  apply list_elem_of_filter in He as [He _].
  unfold candidate, age_le in He. apply andb_prop in He as [_ He].
  destruct (entry_dict e !! col_key (age_check_column p)); [eauto|discriminate].
Qed.

Lemma report_entry_ok (c : column) (e : entry) (w : world) :
  dotless (col_key c) = true ->
  is_Some (entry_dict e !! col_key c) ->
  report_entry c e w =
    (mkWorld (store w) (calls w) (logs w ++ [report_line c e]) (execution_date w),
     Ok tt).
Proof.
  intros Hc [v Hv]. unfold report_entry, report_line, mbind, M_bind, bind, lift.
  rewrite (report_key_ok _ Hc). unfold getitem. rewrite Hv. reflexivity.
Qed.

Lemma for_each_report (c : column) (l : list entry) (w : world) :
  dotless (col_key c) = true ->
  Forall (fun e => is_Some (entry_dict e !! col_key c)) l ->
  for_each l (report_entry c) w =
    (mkWorld (store w) (calls w) (logs w ++ map (report_line c) l) (execution_date w),
     Ok tt).
Proof.
  intros Hc Hl. revert w.
  induction Hl as [|e l He _ IH]; intros w; simpl.
  - rewrite app_nil_r. destruct w; reflexivity.
  - unfold mbind, M_bind, bind. rewrite (report_entry_ok _ _ _ Hc He).
    rewrite IH. simpl. rewrite <- app_assoc. reflexivity.
Qed.

Section Deletes.

Variable delete_raises : entry -> bool.

Lemma for_each_delete_ok (l : list entry) (w : world) :
  Forall (fun e => delete_raises e = false) l ->
  for_each l (session_delete delete_raises) w =
    (mkWorld (store w) (calls w ++ map CallDelete l) (logs w) (execution_date w),
     Ok tt).
Proof.
  intros Hl. revert w.
  induction Hl as [|e l He _ IH]; intros w; simpl.
  - rewrite app_nil_r. destruct w; reflexivity.
  - unfold mbind, M_bind, bind. unfold session_delete at 1. rewrite He.
    rewrite IH. simpl. rewrite <- app_assoc. reflexivity.
Qed.

(** The loop stops at the first delete that raises. *)
Lemma for_each_delete_raise (l1 l2 : list entry) (e : entry) (w : world) :
  Forall (fun e => delete_raises e = false) l1 ->
  delete_raises e = true ->
  for_each (l1 ++ e :: l2) (session_delete delete_raises) w =
    (mkWorld (store w) (calls w ++ map CallDelete (l1 ++ [e])) (logs w)
             (execution_date w), Raise SQLAlchemyError).
Proof.
  intros Hl He. revert w.
  induction Hl as [|x l Hx _ IH]; intros w; simpl.
  - unfold mbind, M_bind, bind, session_delete. rewrite He. reflexivity.
  - unfold mbind, M_bind, bind. unfold session_delete at 1. rewrite Hx.
    rewrite IH. simpl. rewrite <- app_assoc. reflexivity.
Qed.

End Deletes.

(** ** The cleanup task, run symbolically *)

Ltac run_task_body :=
  lazy beta iota zeta delta [cleanup_function mbind M_bind bind lift logging_info
    logging_warn xcom_pull session_query store calls logs execution_date].

Ltac same_logs :=
  unfold cleanup_report, cleanup_preamble, candidates;
  repeat rewrite <- app_assoc; reflexivity.

Ltac pull_cutoff H :=
  unfold pulled_max_date in H; cbn [store execution_date] in H;
  run_task_body; rewrite H; run_task_body.

Section CleanupRuns.

Variable delete_raises : entry -> bool.
Variable p : db_object.
Hypothesis key_dotless : dotless (col_key (age_check_column p)) = true.

(** With [ENABLE_DELETE = False]. *)
Lemma cleanup_dry_run (w : world) (cutoff : datetime) :
  pulled_max_date w = Some cutoff ->
  cleanup_function delete_raises false p w =
    (mkWorld (store w)
       (calls w ++ [CallQuery (airflow_db_model p) (age_check_column p)
                              (Some cutoff)])
       (logs w ++
          cleanup_report false p (Some cutoff)
            (candidates p (Some cutoff) (store w)) ++
          [mkLog WARNING [Lit "You're opted to skip deleting the db entries!!!"];
           mkLog INFO [Lit "Finished Running Cleanup Process"]])
       (execution_date w), Ok tt).
Proof.
  destruct w as [s c l x]. intros Hpull. pull_cutoff Hpull.
  rewrite for_each_report;
    [|exact key_dotless|apply (candidates_loaded p (Some cutoff))].
  run_task_body. same_logs.
Qed.

(** With [ENABLE_DELETE = True], when every delete call returns. *)
Lemma cleanup_deleting (w : world) (cutoff : datetime) :
  pulled_max_date w = Some cutoff ->
  Forall (fun e => delete_raises e = false)
         (candidates p (Some cutoff) (store w)) ->
  cleanup_function delete_raises true p w =
    (mkWorld (store w)
       (calls w ++ CallQuery (airflow_db_model p) (age_check_column p)
                             (Some cutoff)
                :: map CallDelete (candidates p (Some cutoff) (store w)))
       (logs w ++
          cleanup_report true p (Some cutoff)
            (candidates p (Some cutoff) (store w)) ++
          [mkLog INFO [Lit "Performing Delete..."];
           mkLog INFO [Lit "Finished Performing Delete"];
           mkLog INFO [Lit "Finished Running Cleanup Process"]])
       (execution_date w), Ok tt).
Proof.
  destruct w as [s c l x]. intros Hpull Hok. pull_cutoff Hpull.
  rewrite for_each_report;
    [|exact key_dotless|apply (candidates_loaded p (Some cutoff))].
  run_task_body.
  rewrite for_each_delete_ok by exact Hok.
  run_task_body. same_logs.
Qed.

(** With [ENABLE_DELETE = True], when the delete of the candidate that
    follows [before] raises. *)
Lemma cleanup_delete_raises (w : world) (cutoff : datetime)
    (before after : list entry) (e : entry) :
  pulled_max_date w = Some cutoff ->
  candidates p (Some cutoff) (store w) = before ++ e :: after ->
  Forall (fun e => delete_raises e = false) before ->
  delete_raises e = true ->
  cleanup_function delete_raises true p w =
    (mkWorld (store w)
       (calls w ++ CallQuery (airflow_db_model p) (age_check_column p)
                             (Some cutoff)
                :: map CallDelete (before ++ [e]))
       (logs w ++
          cleanup_report true p (Some cutoff) (before ++ e :: after) ++
          [mkLog INFO [Lit "Performing Delete..."]])
       (execution_date w), Raise SQLAlchemyError).
Proof.
  destruct w as [s c l x]. intros Hpull Hes Hok He. pull_cutoff Hpull.
  rewrite for_each_report;
    [|exact key_dotless|apply (candidates_loaded p (Some cutoff))].
  run_task_body.
  change (filter _ s) with (candidates p (Some cutoff) s).
  cbn [store] in Hes. rewrite Hes.
  rewrite for_each_delete_raise by assumption.
  run_task_body. same_logs.
Qed.

End CleanupRuns.

(** Without a published cutoff the comparison of line 130 raises: the
    task has logged its preamble and has called nothing on the session. *)
Lemma cleanup_no_cutoff (delete_raises : entry -> bool) (en : bool)
    (p : db_object) (w : world) :
  pulled_max_date w = None ->
  cleanup_function delete_raises en p w =
    (mkWorld (store w) (calls w) (logs w ++ cleanup_preamble en p None)
             (execution_date w), Raise ArgumentError).
Proof.
  destruct w as [s c l x]. intros Hpull. pull_cutoff Hpull.
  unfold cleanup_preamble. repeat rewrite <- app_assoc. reflexivity.
Qed.

(** ** The configuration task, run symbolically *)

Ltac run_configuration :=
  lazy beta iota zeta delta [mbind M_bind mret M_ret ret bind lift logging_info
    xcom_push store calls logs execution_date].

Lemma print_configuration_ok (enable_delete : bool) (conf v : pyval)
    (now delta max_date : Z) (w : world) :
  conf_value_of conf = Ok v ->
  timedelta (effective_age v) = Ok delta ->
  datetime_sub now delta = Ok max_date ->
  print_configuration_function enable_delete conf now w =
    (mkWorld (store w ++ [max_date_row w max_date]) (calls w)
       (logs w ++ configuration_log enable_delete conf v max_date)
       (execution_date w),
     Ok tt).
Proof.
  destruct w as [s c l x]. unfold conf_value_of, print_configuration_function.
  intros Hv Hdelta Hdate.
  destruct (truthy conf).
  - run_configuration. rewrite Hv.
    destruct v; cbn [effective_age] in Hdelta; run_configuration;
      rewrite Hdelta; run_configuration; rewrite Hdate; run_configuration;
      unfold configuration_log, effective_age, max_date_row;
      repeat rewrite <- app_assoc; reflexivity.
  - injection Hv as <-. cbn [effective_age] in Hdelta. run_configuration.
    rewrite Hdelta. run_configuration. rewrite Hdate. run_configuration.
    unfold configuration_log, effective_age, max_date_row;
      repeat rewrite <- app_assoc.
    reflexivity.
Qed.

(** Nothing is published when the age is not a number of days. *)
Lemma print_configuration_bad_age (enable_delete : bool) (conf v : pyval)
    (now : Z) (w : world) (e : exn) :
  conf_value_of conf = Ok v ->
  timedelta (effective_age v) = Raise e ->
  snd (print_configuration_function enable_delete conf now w) = Raise e /\
  store (fst (print_configuration_function enable_delete conf now w)) = store w /\
  calls (fst (print_configuration_function enable_delete conf now w)) = calls w /\
  execution_date (fst (print_configuration_function enable_delete conf now w))
    = execution_date w.
Proof.
  destruct w as [s c l x]. unfold conf_value_of, print_configuration_function.
  intros Hv Hdelta.
  destruct (truthy conf).
  - run_configuration. rewrite Hv.
    destruct v; cbn [effective_age] in Hdelta; run_configuration;
      rewrite Hdelta; repeat split; reflexivity.
  - injection Hv as <-. cbn [effective_age] in Hdelta. run_configuration.
    rewrite Hdelta. repeat split; reflexivity.
Qed.

(** Nothing is published when the cutoff is not a datetime. *)
Lemma print_configuration_overflow (enable_delete : bool) (conf v : pyval)
    (now delta : Z) (w : world) :
  conf_value_of conf = Ok v ->
  timedelta (effective_age v) = Ok delta ->
  datetime_in_range (now - delta) = false ->
  snd (print_configuration_function enable_delete conf now w) = Raise OverflowError /\
  store (fst (print_configuration_function enable_delete conf now w)) = store w /\
  calls (fst (print_configuration_function enable_delete conf now w)) = calls w /\
  execution_date (fst (print_configuration_function enable_delete conf now w))
    = execution_date w.
Proof.
  destruct w as [s c l x]. unfold conf_value_of, print_configuration_function.
  intros Hv Hdelta Hrange.
  assert (Hdate : datetime_sub now delta = Raise OverflowError)
    by (unfold datetime_sub; rewrite Hrange; reflexivity).
  destruct (truthy conf).
  - run_configuration. rewrite Hv.
    destruct v; cbn [effective_age] in Hdelta; run_configuration;
      rewrite Hdelta; run_configuration; rewrite Hdate; repeat split; reflexivity.
  - injection Hv as <-. cbn [effective_age] in Hdelta. run_configuration.
    rewrite Hdelta. run_configuration. rewrite Hdate. repeat split; reflexivity.
Qed.

(** Nothing is published when the conf has no [get]. *)
Lemma print_configuration_bad_conf (en : bool) (conf : pyval) (now : Z)
    (w : world) (e : exn) :
  conf_value_of conf = Raise e ->
  snd (print_configuration_function en conf now w) = Raise e /\
  store (fst (print_configuration_function en conf now w)) = store w /\
  calls (fst (print_configuration_function en conf now w)) = calls w /\
  execution_date (fst (print_configuration_function en conf now w))
    = execution_date w.
Proof.
  destruct w as [s c l x]. unfold conf_value_of, print_configuration_function.
  intros Hv. destruct (truthy conf); [|discriminate].
  run_configuration. rewrite Hv. repeat split.
Qed.

(** The three ways the configuration task ends. *)
Lemma print_configuration_cases (en : bool) (conf : pyval) (now : Z) (w : world) :
  (exists v delta,
     conf_value_of conf = Ok v /\ timedelta (effective_age v) = Ok delta /\
     datetime_in_range (now - delta) = true /\
     print_configuration_function en conf now w =
       (mkWorld (store w ++ [max_date_row w (now - delta)]) (calls w)
          (logs w ++ configuration_log en conf v (now - delta))
          (execution_date w), Ok tt)) \/
  (exists e,
     snd (print_configuration_function en conf now w) = Raise e /\
     store (fst (print_configuration_function en conf now w)) = store w /\
     calls (fst (print_configuration_function en conf now w)) = calls w /\
     execution_date (fst (print_configuration_function en conf now w))
       = execution_date w).
Proof.
  destruct (conf_value_of conf) as [v|e] eqn:Hv.
  2:{ right. exists e. apply (print_configuration_bad_conf en conf now w e Hv). }
  destruct (timedelta (effective_age v)) as [delta|e] eqn:Hdelta.
  2:{ right. exists e. apply (print_configuration_bad_age en conf v now w e Hv Hdelta). }
  destruct (datetime_in_range (now - delta)) eqn:Hrange.
  - left. exists v, delta. repeat split; try assumption.
    apply (print_configuration_ok en conf v now delta (now - delta) w Hv Hdelta).
    unfold datetime_sub. rewrite Hrange. reflexivity.
  - right. exists OverflowError.
    apply (print_configuration_overflow en conf v now delta w Hv Hdelta Hrange).
Qed.

(** ** Observations *)

Lemma new_logs_app (w w' : world) (ls : list log_record) :
  logs w' = logs w ++ ls -> new_logs w w' = ls.
Proof. intros H. unfold new_logs. rewrite H. apply drop_app_length. Qed.

Lemma new_calls_app (w w' : world) (cs : list session_call) :
  calls w' = calls w ++ cs -> new_calls w w' = cs.
Proof. intros H. unfold new_calls. rewrite H. apply drop_app_length. Qed.

Lemma new_calls_none (w w' : world) :
  calls w' = calls w -> new_calls w w' = [].
Proof. intros H. unfold new_calls. rewrite H. apply drop_all. Qed.

Lemma reported_entries_app (l1 l2 : list log_record) :
  reported_entries (l1 ++ l2) = reported_entries l1 ++ reported_entries l2.
Proof. apply omap_app. Qed.

Lemma reported_entries_lines (c : column) (es : list entry) :
  reported_entries (map (report_line c) es) = es.
Proof.
  induction es as [|e es IH]; [reflexivity|].
  unfold reported_entries in *.
  change (omap reported_entry (map (report_line c) (e :: es)))
    with (e :: omap reported_entry (map (report_line c) es)).
  rewrite IH. reflexivity.
Qed.

Lemma reported_entries_preamble (en : bool) (p : db_object) (d : option datetime) :
  reported_entries (cleanup_preamble en p d) = [].
Proof. reflexivity. Qed.

Lemma reported_entries_report (en : bool) (p : db_object) (d : option datetime)
    (es : list entry) :
  reported_entries (cleanup_report en p d es) = es.
Proof.
  unfold cleanup_report.
  rewrite !reported_entries_app, reported_entries_lines, reported_entries_preamble.
  unfold reported_entries. vm_compute omap. apply app_nil_r.
Qed.

Lemma delete_calls_map (es : list entry) :
  delete_calls (map CallDelete es) = es.
Proof.
  induction es as [|e es IH]; [reflexivity|].
  unfold delete_calls in *.
  change (omap _ (map CallDelete (e :: es)))
    with (e :: omap (fun c => match c with
                              | CallDelete e => Some e
                              | CallQuery _ _ _ => None
                              end) (map CallDelete es)).
  rewrite IH. reflexivity.
Qed.

Lemma query_calls_map (es : list entry) :
  query_calls (map CallDelete es) = [].
Proof.
  induction es as [|e es IH]; [reflexivity|].
  unfold query_calls in *. exact IH.
Qed.


(** Either every delete of a batch returns, or there is a first one that
    raises. *)
Lemma first_refused (f : entry -> bool) (l : list entry) :
  Forall (fun e => f e = false) l \/
  exists before e after,
    l = before ++ e :: after /\ Forall (fun e => f e = false) before /\ f e = true.
Proof.
  induction l as [|x l IH]; [left; constructor|].
  destruct (f x) eqn:Hx.
  - right. exists [], x, l. repeat split; [constructor | exact Hx].
  - destruct IH as [IH | (before & e & after & -> & Hb & He)].
    + left. constructor; assumption.
    + right. exists (x :: before), e, after.
      repeat split; [constructor; assumption | exact He].
Qed.

Lemma override_absent_value (conf : pyval) :
  override_absent conf -> conf_value_of conf = Ok PyNone.
Proof.
  unfold conf_value_of. intros [H | (d & -> & H)].
  - rewrite H. reflexivity.
  - destruct (truthy (PyDict d)); [|reflexivity].
    cbn [conf_get]. destruct H as [H | H]; rewrite H; reflexivity.
Qed.

Lemma conf_with_value (v : pyval) : conf_value_of (conf_with v) = Ok v.
Proof.
  unfold conf_value_of, conf_with. cbn [truthy conf_get].
  rewrite map_size_singleton, lookup_singleton_eq. reflexivity.
Qed.


(** With a published cutoff, whatever the switch and whichever delete
    raises, a cleanup task issues one query with that cutoff, reports the
    candidates, calls [SESSION.delete] on the first of them and leaves
    the tables as they were. *)
Lemma cleanup_function_shape (delete_raises : entry -> bool) (en : bool)
    (p : db_object) (w : world) (cutoff : datetime) :
  dotless (col_key (age_check_column p)) = true ->
  pulled_max_date w = Some cutoff ->
  exists (attempted later : list entry) (rest : list log_record) (r : result unit),
    cleanup_function delete_raises en p w =
      (mkWorld (store w)
         (calls w ++ CallQuery (airflow_db_model p) (age_check_column p)
                               (Some cutoff)
                  :: map CallDelete attempted)
         (logs w ++
            cleanup_report en p (Some cutoff)
              (candidates p (Some cutoff) (store w)) ++ rest)
         (execution_date w), r) /\
    reported_entries rest = [] /\
    candidates p (Some cutoff) (store w) = attempted ++ later /\
    (r = Ok tt -> en = true -> later = []) /\
    (en = false -> attempted = []).
Proof.
  intros Hdot Hpull. destruct en.
  - destruct (first_refused delete_raises (candidates p (Some cutoff) (store w)))
      as [Hok | (before & e & after & Hes & Hb & He)].
    + exists (candidates p (Some cutoff) (store w)), [].
      eexists _, _. split; [apply cleanup_deleting; assumption|].
      split; [reflexivity|]. split; [symmetry; apply app_nil_r|].
      split; [reflexivity | discriminate].
    + exists (before ++ [e]), after. eexists _, _. split.
      * rewrite (cleanup_delete_raises _ _ Hdot _ _ _ _ _ Hpull Hes Hb He).
        rewrite <- Hes. reflexivity.
      * split; [reflexivity|]. split; [rewrite Hes, <- app_assoc; reflexivity|].
        split; discriminate.
  - exists [], (candidates p (Some cutoff) (store w)). eexists _, _.
    split; [apply cleanup_dry_run; assumption|].
    split; [reflexivity|]. split; [reflexivity|]. split; [discriminate | reflexivity].
Qed.

(** A cleanup task leaves the tables and the run's date as they were,
    with or without a published cutoff. *)
Lemma cleanup_frame (delete_raises : entry -> bool) (en : bool)
    (p : db_object) (w : world) :
  dotless (col_key (age_check_column p)) = true ->
  store (fst (cleanup_function delete_raises en p w)) = store w /\
  execution_date (fst (cleanup_function delete_raises en p w)) = execution_date w /\
  pulled_max_date (fst (cleanup_function delete_raises en p w)) = pulled_max_date w.
Proof.
  intros Hdot.
  assert (H : store (fst (cleanup_function delete_raises en p w)) = store w /\
              execution_date (fst (cleanup_function delete_raises en p w))
                = execution_date w).
  { destruct (pulled_max_date w) as [cutoff|] eqn:Hpull.
    - destruct (cleanup_function_shape delete_raises en p w cutoff Hdot Hpull)
        as (attempted & later & rest & r & Hrun & _).
      rewrite Hrun. split; reflexivity.
    - rewrite (cleanup_no_cutoff delete_raises en p w Hpull). split; reflexivity. }
  destruct H as [Hs Hd]. split; [exact Hs|]. split; [exact Hd|].
  unfold pulled_max_date. rewrite Hs, Hd. reflexivity.
Qed.

Lemma in_range_bounds (t : Z) :
  datetime_in_range t = true <-> 0 <= t < DATETIME_LIMIT.
Proof. unfold datetime_in_range. rewrite andb_true_iff. lia. Qed.

Lemma timedelta_days (n delta : Z) :
  timedelta (PyInt n) = Ok delta -> delta = days n.
Proof.
  cbn [timedelta]. destruct (Z.abs n <=? 999999999); [|discriminate].
  intros H. injection H as <-. reflexivity.
Qed.

(** An integer number of days whose cutoff is a datetime passes both
    checks of line 93. *)
Lemma timedelta_in_range (n now : Z) :
  datetime_in_range now = true ->
  datetime_in_range (now - days n) = true ->
  timedelta (PyInt n) = Ok (days n).
Proof.
  rewrite !in_range_bounds. unfold days, DATETIME_LIMIT, MAXORDINAL, 
    MICROSECONDS_PER_DAY. intros Hnow Hcut. cbn [timedelta].
  destruct (Z.leb_spec (Z.abs n) 999999999) as [_|Hbig]; [reflexivity|]. lia.
Qed.

(** What the tables hold after the configuration task completed is what
    a cleanup task pulls. *)
Lemma pulled_after_publish (rows : list entry) (cs : list session_call)
    (ls : list log_record) (w : world) (cutoff : datetime) :
  pulled_max_date
    (mkWorld (store w ++ [max_date_row w cutoff]) cs ls (execution_date w))
  = Some cutoff.
Proof.
  unfold pulled_max_date, max_date_row. cbn [store execution_date].
  apply xcom_get_one_pushed.
Qed.

(** The configuration task with a value under the key that [timedelta]
    accepts. *)
Lemma publishes_value (en : bool) (v : pyval) (now delta : Z) (conf : pyval)
    (w : world) :
  conf_value_of conf = Ok v ->
  timedelta (effective_age v) = Ok delta ->
  datetime_in_range (now - delta) = true ->
  publishes en conf now w (now - delta).
Proof.
  intros Hv Hdelta Hcut. unfold publishes.
  rewrite (print_configuration_ok en conf v now delta (now - delta) w Hv Hdelta).
  - split; [reflexivity|]. cbn [fst]. apply (pulled_after_publish []).
  - unfold datetime_sub. rewrite Hcut. reflexivity.
Qed.

(** The configuration task with an integer under the key. *)
Lemma publishes_int (en : bool) (n now : Z) (conf : pyval) (w : world) :
  conf_value_of conf = Ok (PyInt n) ->
  datetime_in_range now = true ->
  datetime_in_range (now - days n) = true ->
  publishes en conf now w (now - days n).
Proof.
  intros Hv Hnow Hcut.
  apply (publishes_value en (PyInt n) now (days n) conf w Hv); [|exact Hcut].
  apply (timedelta_in_range n now Hnow Hcut).
Qed.

Lemma publishes_default (en : bool) (now : Z) (conf : pyval) (w : world) :
  conf_value_of conf = Ok PyNone ->
  datetime_in_range (now - days DEFAULT_MAX_DB_ENTRY_AGE_IN_DAYS) = true ->
  publishes en conf now w (now - days DEFAULT_MAX_DB_ENTRY_AGE_IN_DAYS).
Proof.
  intros Hv Hcut.
  apply (publishes_value en PyNone now (days DEFAULT_MAX_DB_ENTRY_AGE_IN_DAYS)
           conf w Hv); [reflexivity | exact Hcut].
Qed.

(** What the configuration task publishes does not depend on the tables,
    the log or the calls it finds. *)
Lemma publishes_any_world (en : bool) (conf : pyval) (now cutoff : Z) (w w' : world) :
  publishes en conf now w cutoff -> publishes en conf now w' cutoff.
Proof.
  intros [Hok Hpub].
  destruct (print_configuration_cases en conf now w)
    as [(v & delta & Hv & Hdelta & Hrange & Hrun) | (e & Hraise & _)].
  - rewrite Hrun in Hpub. cbn [fst] in Hpub.
    rewrite (pulled_after_publish []) in Hpub. injection Hpub as <-.
    apply (publishes_value en v now delta conf w' Hv Hdelta Hrange).
  - rewrite Hraise in Hok. discriminate.
Qed.

Lemma conf_value_present (d : gmap string pyval) (v : pyval) :
  d !! "maxDBEntryAgeInDays"%string = Some v -> conf_value_of (PyDict d) = Ok v.
Proof.
  intros Hv. unfold conf_value_of. cbn [truthy conf_get].
  rewrite Hv. rewrite bool_decide_eq_false_2; [reflexivity|].
  intros Hsize. apply map_size_empty_iff in Hsize. subst d.
  rewrite lookup_empty in Hv. discriminate.
Qed.

Lemma elem_of_candidates (p : db_object) (d : option datetime)
    (rows : list entry) (e : entry) :
  e ∈ candidates p d rows <->
  e ∈ rows /\ entry_model e = airflow_db_model p /\
  exists t cutoff, d = Some cutoff /\
    entry_dict e !! col_key (age_check_column p) = Some (Some t) /\ t <= cutoff.
Proof.
  destruct d as [d|]; cbn [candidates].
  2:{ split; [intros H; apply elem_of_nil in H; contradiction|].
      intros (_ & _ & t & cutoff & H & _). discriminate. }
  rewrite list_elem_of_filter. unfold candidate, age_le.
  rewrite andb_true_iff, bool_decide_eq_true. split.
  - intros [[Hm Hage] Hin]. split; [exact Hin|]. split; [exact Hm|].
    destruct (entry_dict e !! col_key (age_check_column p)) as [[t|]|];
      try discriminate.
    exists t, d. repeat split. apply Z.leb_le. exact Hage.
  - intros (Hin & Hm & t & cutoff & Hd & Ht & Hle). injection Hd as <-.
    split; [|exact Hin].
    split; [exact Hm|]. rewrite Ht. apply Z.leb_le. exact Hle.
Qed.

(** The rows a cleanup task reports are the candidates of its query. *)
Lemma cleanup_reports (delete_raises : entry -> bool) (en : bool)
    (p : db_object) (w : world) :
  dotless (col_key (age_check_column p)) = true ->
  reported_entries (new_logs w (fst (cleanup_function delete_raises en p w)))
  = candidates p (pulled_max_date w) (store w).
Proof.
  intros Hdot. destruct (pulled_max_date w) as [cutoff|] eqn:Hpull.
  - destruct (cleanup_function_shape delete_raises en p w cutoff Hdot Hpull)
      as (attempted & later & rest & r & Hrun & Hrest & _).
    rewrite Hrun. cbn [fst]. erewrite new_logs_app by reflexivity.
    rewrite reported_entries_app, reported_entries_report, Hrest.
    apply app_nil_r.
  - rewrite (cleanup_no_cutoff delete_raises en p w Hpull). cbn [fst].
    erewrite new_logs_app by reflexivity. reflexivity.
Qed.

(** ** C1: fallback to the default age *)

(** C1 (as amended). For every run configuration whose
    [maxDBEntryAgeInDays] override is absent (no conf, an empty conf, a
    conf without the key, or a null under the key), the configuration task
    falls back to [DEFAULT_MAX_DB_ENTRY_AGE_IN_DAYS] (30), completes
    without raising and publishes now minus 30 days. *)
Theorem C1_absent_override_falls_back (en : bool) (conf : pyval)
    (now : datetime) (w : world) :
  override_absent conf ->
  days 30 <= now < DATETIME_LIMIT ->
  publishes en conf now w (now - days DEFAULT_MAX_DB_ENTRY_AGE_IN_DAYS) /\
  mkLog INFO [Lit "maxDBEntryAgeInDays conf variable isn't included. Using Default '";
              Str (OVal (PyInt 30)); Lit "'"]
    ∈ new_logs w (fst (print_configuration_function en conf now w)).
Proof.
  intros Habsent Hnow.
  pose proof (override_absent_value conf Habsent) as Hv.
  assert (Hcut : datetime_in_range (now - days DEFAULT_MAX_DB_ENTRY_AGE_IN_DAYS) = true).
  { apply in_range_bounds. unfold DEFAULT_MAX_DB_ENTRY_AGE_IN_DAYS.
    unfold days in *. unfold MICROSECONDS_PER_DAY in *. lia. }
  split; [apply publishes_default; assumption|].
  rewrite (print_configuration_ok en conf PyNone now
             (days DEFAULT_MAX_DB_ENTRY_AGE_IN_DAYS)
             (now - days DEFAULT_MAX_DB_ENTRY_AGE_IN_DAYS) w Hv);
    [| reflexivity | unfold datetime_sub; rewrite Hcut; reflexivity].
  cbn [fst]. erewrite new_logs_app by reflexivity.
  unfold configuration_log. apply list_elem_of_In. cbn. tauto.
Qed.

(** C1, witness: a scheduled run (no conf) on 2024-06-01. *)
Lemma C1_absent_override_falls_back_witness :
  publishes true PyNone june_2024 (fresh_world [])
    (june_2024 - days DEFAULT_MAX_DB_ENTRY_AGE_IN_DAYS).
Proof.
  apply (C1_absent_override_falls_back true PyNone june_2024 (fresh_world [])).
  - left. reflexivity.
  - vm_compute. split; [discriminate | reflexivity].
Defined.

(** C1, as stated, fails: a negative override is used as it is (the
    cutoff is five days after now, not thirty days before), and an
    override that is not a number makes the task raise [TypeError]. *)
Lemma C1_counterexample_override_not_validated :
  publishes true (conf_with (PyInt (-5))) june_2024 (fresh_world [])
    (june_2024 + days 5) /\
  ~ publishes true (conf_with (PyInt (-5))) june_2024 (fresh_world [])
      (june_2024 - days DEFAULT_MAX_DB_ENTRY_AGE_IN_DAYS) /\
  snd (print_configuration_function true (conf_with (PyStr "abc")) june_2024
         (fresh_world [])) = Raise TypeError.
Proof.
  split; [|split].
  - split; vm_compute; reflexivity.
  - intros [_ H]. vm_compute in H. discriminate.
  - vm_compute. reflexivity.
Qed.

(** ** C6: the cutoff is now minus whole days *)

(** C6 (as amended). For every non-negative integer [maxAgeDays] and
    every timestamp [now] such that now minus [maxAgeDays] days is not
    before the earliest datetime, the published cutoff is now minus
    [maxAgeDays] whole days, exactly; among such ages the cutoff is
    antitone: a larger age gives an earlier or equal cutoff. *)
Theorem C6_cutoff_exact_and_antitone (en : bool) (m n : Z) (now : datetime)
    (w : world) :
  0 <= m <= n ->
  datetime_in_range now = true ->
  days n <= now ->
  publishes en (conf_with (PyInt m)) now w (now - days m) /\
  publishes en (conf_with (PyInt n)) now w (now - days n) /\
  now - days n <= now - days m.
Proof.
  intros Hmn Hnow Hn.
  assert (Hdays : 0 <= days m <= days n)
    by (unfold days, MICROSECONDS_PER_DAY; lia).
  pose proof (proj1 (in_range_bounds now) Hnow) as Hb.
  split; [|split].
  - apply publishes_int; [apply conf_with_value | exact Hnow |].
    apply in_range_bounds. lia.
  - apply publishes_int; [apply conf_with_value | exact Hnow |].
    apply in_range_bounds. lia.
  - lia.
Qed.

(** C6, witness: ages 0 and 30 on 2024-06-01. *)
Lemma C6_cutoff_exact_and_antitone_witness :
  publishes true (conf_with (PyInt 0)) june_2024 (fresh_world [])
    (june_2024 - days 0) /\
  publishes true (conf_with (PyInt 30)) june_2024 (fresh_world [])
    (june_2024 - days 30) /\
  june_2024 - days 30 <= june_2024 - days 0.
Proof.
  apply (C6_cutoff_exact_and_antitone true 0 30 june_2024 (fresh_world [])).
  - lia.
  - reflexivity.
  - vm_compute. discriminate.
Defined.

(** C6, as stated, fails: on 2024-06-01 an age of 800000 days asks for a
    cutoff before year 1; the subtraction raises [OverflowError] and no
    cutoff is resolved. *)
Lemma C6_counterexample_cutoff_before_year_one :
  0 <= 800000 /\
  snd (print_configuration_function true (conf_with (PyInt 800000)) june_2024
         (fresh_world [])) = Raise OverflowError /\
  ~ publishes true (conf_with (PyInt 800000)) june_2024 (fresh_world [])
      (june_2024 - days 800000).
Proof.
  split; [lia|]. split.
  - vm_compute. reflexivity.
  - intros [H _]. vm_compute in H. discriminate.
Qed.

(** ** C2: an override is used as it is *)

(** C2 (as amended). For every conf in which the key is present with a
    number [v], an integer or a float, such that [timedelta(v)] exists
    and now minus it is a datetime the interpreter represents, the
    configuration task uses [v] as it is, with no range validation: the
    published cutoff is now minus [timedelta(v)], which is [v] whole days
    for an integer. This also holds for a negative number: when
    [timedelta(v)] is negative the cutoff lies in the future, and every
    row of a cleanup task's model whose age attribute is at most that
    future time, in particular every row dated now or earlier, is a
    candidate. *)
Theorem C2_override_used_unvalidated (delete_raises : entry -> bool)
    (en : bool) (d : gmap string pyval) (v : pyval) (delta : Z)
    (now : datetime) (w : world) (p : db_object) :
  d !! "maxDBEntryAgeInDays"%string = Some v ->
  is_number v = true ->
  timedelta v = Ok delta ->
  datetime_in_range (now - delta) = true ->
  dotless (col_key (age_check_column p)) = true ->
  let configured := fst (print_configuration_function en (PyDict d) now w) in
  publishes en (PyDict d) now w (now - delta) /\
  (forall n : Z, v = PyInt n -> delta = days n /\ (n < 0 <-> delta < 0)) /\
  (delta < 0 ->
   now < now - delta /\
   forall (e : entry) (t : datetime),
     e ∈ store w ->
     entry_model e = airflow_db_model p ->
     entry_dict e !! col_key (age_check_column p) = Some (Some t) ->
     (t <= now - delta ->
      e ∈ reported_entries
            (new_logs configured
               (fst (cleanup_function delete_raises en p configured)))) /\
     (t <= now -> t <= now - delta)).
Proof.
  intros Hd Hnum Hdelta Hcut Hdot configured.
  pose proof (conf_value_present d v Hd) as Hv.
  assert (Hage : effective_age v = v) by (destruct v; try discriminate; reflexivity).
  assert (Hdelta' : timedelta (effective_age v) = Ok delta)
    by (rewrite Hage; exact Hdelta).
  split; [apply (publishes_value en v now delta (PyDict d) w Hv Hdelta' Hcut)|].
  split.
  { intros n ->. pose proof (timedelta_days n delta Hdelta) as ->.
    split; [reflexivity|]. unfold days, MICROSECONDS_PER_DAY. lia. }
  intros Hneg.
  split; [lia|].
  intros e t Hin Hm Ht. split; [|lia].
  intros Hle. rewrite (cleanup_reports delete_raises en p configured Hdot).
  apply elem_of_candidates.
  assert (Hw : configured =
    mkWorld (store w ++ [max_date_row w (now - delta)]) (calls w)
      (logs w ++ configuration_log en (PyDict d) v (now - delta))
      (execution_date w)).
  { unfold configured.
    rewrite (print_configuration_ok en (PyDict d) v now delta (now - delta) w
               Hv Hdelta'); [reflexivity|].
    unfold datetime_sub. rewrite Hcut. reflexivity. }
  rewrite Hw. cbn [store]. split; [apply elem_of_app; left; exact Hin|].
  split; [exact Hm|].
  exists t, (now - delta). split; [|split; assumption].
  apply (pulled_after_publish []).
Qed.

(** C2, witness: an override of half a day on 2024-06-01 with the three
    sample rows; the cutoff is 2024-05-31 at noon. *)
Lemma C2_override_used_unvalidated_witness :
  publishes true (conf_with (PyFloat 0.5)) june_2024 (fresh_world scenario_rows)
    (june_2024 - 43200000000).
Proof.
  apply (C2_override_used_unvalidated never_raises true
           {[ "maxDBEntryAgeInDays"%string := PyFloat 0.5 ]} (PyFloat 0.5)
           43200000000 june_2024 (fresh_world scenario_rows) LOG_OBJECT).
  - apply lookup_singleton_eq.
  - reflexivity.
  - vm_compute. reflexivity.
  - reflexivity.
  - reflexivity.
Defined.

(** C2, as stated, fails. On 2024-06-01 an override of -3000000 days
    asks for a cutoff after year 9999: the task raises [OverflowError]
    and publishes nothing. A negative override of less than half a
    microsecond, here -2^-70 days, is rounded to no time at all: the
    published cutoff is now, not a time in the future. And with an
    override of -5 days a row dated 2024-06-14, after the future cutoff,
    exists and is not a candidate. *)
Lemma C2_counterexample_cutoff_after_year_9999 :
  snd (print_configuration_function true (conf_with (PyInt (-3000000))) june_2024
         (fresh_world scenario_rows)) = Raise OverflowError /\
  pulled_max_date
    (fst (print_configuration_function true (conf_with (PyInt (-3000000)))
            june_2024 (fresh_world scenario_rows))) = None /\
  ~ publishes true (conf_with (PyInt (-3000000))) june_2024
      (fresh_world scenario_rows) (june_2024 - days (-3000000)) /\
  PrimFloat.ltb (-0x1p-70)%float PrimFloat.zero = true /\
  publishes true (conf_with (PyFloat (-0x1p-70))) june_2024
    (fresh_world scenario_rows) june_2024 /\
  let configured :=
    fst (print_configuration_function true (conf_with (PyInt (-5))) june_2024
           (fresh_world (scenario_rows ++ [log_row 4 739050]))) in
  log_row 4 739050 ∈ store configured /\
  reported_entries
    (new_logs configured
       (fst (cleanup_function never_raises true LOG_OBJECT configured)))
  = scenario_rows.
Proof.
  split; [|split; [|split; [|split; [|split; [|split]]]]].
  - vm_compute. reflexivity.
  - vm_compute. reflexivity.
  - intros [H _]. vm_compute in H. discriminate.
  - vm_compute. reflexivity.
  - split; vm_compute; reflexivity.
  - apply list_elem_of_In. vm_compute. tauto.
  - vm_compute. reflexivity.
Qed.

(** ** C5: the candidates of a cleanup task *)

(** C5. The candidate set of a cleanup task, as it reports it, is exactly
    the rows of its model whose age attribute is less than or equal to
    the published cutoff, the bound included. With an override of 0 the
    cutoff is now, and a row timestamped exactly now is a candidate. *)
Theorem C5_candidates_inclusive (delete_raises : entry -> bool) (en : bool)
    (p : db_object) (w : world) (now : datetime) :
  dotless (col_key (age_check_column p)) = true ->
  datetime_in_range now = true ->
  let configured :=
    fst (print_configuration_function en (conf_with (PyInt 0)) now w) in
  (forall e : entry,
     e ∈ reported_entries (new_logs w (fst (cleanup_function delete_raises en p w)))
     <->
     e ∈ store w /\ entry_model e = airflow_db_model p /\
     exists t cutoff,
       pulled_max_date w = Some cutoff /\
       entry_dict e !! col_key (age_check_column p) = Some (Some t) /\
       t <= cutoff) /\
  publishes en (conf_with (PyInt 0)) now w now /\
  (forall e : entry,
     e ∈ store w -> entry_model e = airflow_db_model p ->
     entry_dict e !! col_key (age_check_column p) = Some (Some now) ->
     e ∈ reported_entries
           (new_logs configured
              (fst (cleanup_function delete_raises en p configured)))).
Proof.
  intros Hdot Hnow configured.
  assert (Hcut : datetime_in_range (now - days 0) = true)
    by (unfold days; rewrite Z.mul_0_l, Z.sub_0_r; exact Hnow).
  pose proof (publishes_int en 0 now (conf_with (PyInt 0)) w
                (conf_with_value _) Hnow Hcut) as Hpub.
  unfold days in Hpub. rewrite Z.mul_0_l, Z.sub_0_r in Hpub.
  split; [|split; [exact Hpub|]].
  - intros e. rewrite (cleanup_reports delete_raises en p w Hdot).
    apply elem_of_candidates.
  - intros e Hin Hm Ht.
    rewrite (cleanup_reports delete_raises en p configured Hdot).
    apply elem_of_candidates.
    assert (Hstore : store configured = store w ++ [max_date_row w (now - days 0)]).
    { unfold configured.
      rewrite (print_configuration_ok en _ (PyInt 0) now (days 0) (now - days 0) w
                 (conf_with_value _)); [reflexivity | reflexivity |].
      unfold datetime_sub. rewrite Hcut. reflexivity. }
    rewrite Hstore. split; [apply elem_of_app; left; exact Hin|]. split; [exact Hm|].
    exists now, now. split; [apply Hpub|]. split; [exact Ht | lia].
Qed.

(** C5, witness: the [Log] task on 2024-06-01 with the three sample rows;
    the row dated 2024-06-01 is a candidate once the override is 0. *)
Lemma C5_candidates_inclusive_witness :
  log_row 3 739037
    ∈ reported_entries
        (new_logs
           (fst (print_configuration_function true (conf_with (PyInt 0))
                   june_2024 (fresh_world scenario_rows)))
           (fst (cleanup_function never_raises true LOG_OBJECT
                   (fst (print_configuration_function true (conf_with (PyInt 0))
                           june_2024 (fresh_world scenario_rows)))))).
Proof.
  apply (C5_candidates_inclusive never_raises true LOG_OBJECT
           (fresh_world scenario_rows) june_2024).
  - reflexivity.
  - reflexivity.
  - apply list_elem_of_In. vm_compute. tauto.
  - reflexivity.
  - reflexivity.
Defined.

(** ** C3: the dry run *)

(** C3. With [ENABLE_DELETE = False] a cleanup task that finds the
    published cutoff issues no delete (its only call on the session is
    the query), leaves the tables as they were, reports every candidate
    with the same lines as a run with deletion enabled would, and logs
    one warning, that deletion was skipped. *)
Theorem C3_dry_run_deletes_nothing (delete_raises : entry -> bool)
    (p : db_object) (w : world) (cutoff : datetime) :
  dotless (col_key (age_check_column p)) = true ->
  pulled_max_date w = Some cutoff ->
  let dry := cleanup_function delete_raises false p w in
  let enabled := cleanup_function delete_raises true p w in
  let es := candidates p (Some cutoff) (store w) in
  snd dry = Ok tt /\
  delete_calls (new_calls w (fst dry)) = [] /\
  new_calls w (fst dry) =
    [CallQuery (airflow_db_model p) (age_check_column p) (Some cutoff)] /\
  store (fst dry) = store w /\
  reported_entries (new_logs w (fst dry)) = es /\
  reported_entries (new_logs w (fst enabled)) = es /\
  Forall (fun e => report_line (age_check_column p) e ∈ new_logs w (fst dry) /\
                   report_line (age_check_column p) e ∈ new_logs w (fst enabled)) es /\
  warnings (new_logs w (fst dry)) =
    [mkLog WARNING [Lit "You're opted to skip deleting the db entries!!!"]].
Proof.
  intros Hdot Hpull dry enabled es.
  pose proof (cleanup_dry_run delete_raises p Hdot w cutoff Hpull) as Hdry.
  destruct (cleanup_function_shape delete_raises true p w cutoff Hdot Hpull)
    as (attempted & later & rest & r & Hen & Hrest & _).
  assert (Hlogs : new_logs w (fst dry) =
    cleanup_report false p (Some cutoff) es ++
      [mkLog WARNING [Lit "You're opted to skip deleting the db entries!!!"];
       mkLog INFO [Lit "Finished Running Cleanup Process"]]).
  { unfold dry. rewrite Hdry. cbn [fst]. apply new_logs_app. reflexivity. }
  assert (Hlogs' : new_logs w (fst enabled) =
    cleanup_report true p (Some cutoff) es ++ rest).
  { unfold enabled. rewrite Hen. cbn [fst]. apply new_logs_app. reflexivity. }
  assert (Hreported : forall en,
    reported_entries (new_logs w (fst (cleanup_function delete_raises en p w))) = es).
  { intros en. rewrite (cleanup_reports delete_raises en p w Hdot), Hpull.
    reflexivity. }
  split; [|split; [|split; [|split; [|split; [|split; [|split]]]]]].
  - unfold dry. rewrite Hdry. reflexivity.
  - unfold dry. rewrite Hdry. cbn [fst].
    erewrite new_calls_app by reflexivity. reflexivity.
  - unfold dry. rewrite Hdry. cbn [fst].
    erewrite new_calls_app by reflexivity. reflexivity.
  - unfold dry. rewrite Hdry. reflexivity.
  - apply Hreported.
  - apply Hreported.
  - apply Forall_forall. intros e He. rewrite Hlogs, Hlogs'.
    unfold cleanup_report.
    split; rewrite !elem_of_app; left; right; right; left;
      apply list_elem_of_fmap; exists e; split; [reflexivity | exact He | reflexivity | exact He].
  - rewrite Hlogs. unfold warnings, cleanup_report.
    rewrite !filter_app.
    assert (Hmap : forall l : list entry,
              filter (fun l => log_level l = WARNING)
                     (map (report_line (age_check_column p)) l) = []).
    { induction l as [|x l IH]; [reflexivity|].
      cbn [map]. rewrite filter_cons_False by (cbn; discriminate). exact IH. }
    rewrite Hmap. reflexivity.
Qed.

(** C3, witness: the [Log] task in dry-run mode over the three sample
    rows, with the cutoff of a scheduled run on 2024-06-01. *)
Lemma C3_dry_run_deletes_nothing_witness :
  delete_calls
    (new_calls scheduled_world
       (fst (cleanup_function never_raises false LOG_OBJECT scheduled_world)))
  = [].
Proof.
  apply (C3_dry_run_deletes_nothing never_raises LOG_OBJECT scheduled_world
           (days 739007)).
  - reflexivity.
  - vm_compute. reflexivity.
Defined.

(** ** C4: deletion of every candidate *)



(** ** C8: a delete that raises *)

(** C8 (as amended). Within one cleanup task's deletion batch, a delete
    that raises is not captured: it ends the task with that error and the
    remaining deletions are not attempted. For every candidate list and
    every position at which the first delete fails, [SESSION.delete] is
    called on the candidates before that position and on the failing
    one, which is the last call on the session: no candidate after that
    position is attempted, although all of them were reported. *)
Theorem C8_delete_failure_aborts_batch (delete_raises : entry -> bool)
    (p : db_object) (w : world) (before after : list entry) (e : entry) :
  dotless (col_key (age_check_column p)) = true ->
  candidates p (pulled_max_date w) (store w) = before ++ e :: after ->
  Forall (fun x => delete_raises x = false) before ->
  delete_raises e = true ->
  let run := cleanup_function delete_raises true p w in
  snd run = Raise SQLAlchemyError /\
  delete_calls (new_calls w (fst run)) = before ++ [e] /\
  last (new_calls w (fst run)) = Some (CallDelete e) /\
  reported_entries (new_logs w (fst run)) = before ++ e :: after /\
  (mkLog INFO [Lit "Finished Performing Delete"] ∉ new_logs w (fst run)).
Proof.
  intros Hdot Hes Hb He run.
  destruct (pulled_max_date w) as [cutoff|] eqn:Hpull.
  2:{ cbn [candidates] in Hes. destruct before; discriminate Hes. }
  pose proof (cleanup_delete_raises delete_raises p Hdot w cutoff before after e
                Hpull Hes Hb He) as Hrun.
  split; [|split; [|split; [|split]]].
  - unfold run. rewrite Hrun. reflexivity.
  - unfold run. rewrite Hrun. cbn [fst].
    erewrite new_calls_app by reflexivity.
    change (delete_calls (CallQuery _ _ _ :: map CallDelete ?l))
      with (delete_calls (map CallDelete l)).
    apply delete_calls_map.
  - unfold run. rewrite Hrun. cbn [fst].
    erewrite new_calls_app by reflexivity.
    rewrite map_app. cbn [map].
    rewrite app_comm_cons, last_snoc. reflexivity.
  - unfold run. rewrite (cleanup_reports delete_raises true p w Hdot), Hpull.
    exact Hes.
  - unfold run. rewrite Hrun. cbn [fst]. erewrite new_logs_app by reflexivity.
    unfold cleanup_report, cleanup_preamble.
    rewrite !elem_of_app, !list_elem_of_In, in_map_iff. cbn [In].
    intros [[H | [H | [H | H]]] | H].
    + repeat (destruct H as [H | H]; [discriminate H|]). exact H.
    + destruct H as [H | []]. discriminate H.
    + destruct H as (x & Hx & _). discriminate Hx.
    + destruct H as [H | []]. discriminate H.
    + destruct H as [H | []]. discriminate H.
Qed.

(** C8, witness: three candidates, the second delete raises. *)
Lemma C8_delete_failure_aborts_batch_witness :
  delete_calls
    (new_calls all_candidates_world
       (fst (cleanup_function (raises_on 2) true LOG_OBJECT all_candidates_world)))
  = [log_row 1 738976; log_row 2 739020].
Proof.
  apply (C8_delete_failure_aborts_batch (raises_on 2) LOG_OBJECT
           all_candidates_world [log_row 1 738976] [log_row 3 739037]
           (log_row 2 739020)).
  - reflexivity.
  - vm_compute. reflexivity.
  - apply Forall_forall. intros x Hx. apply list_elem_of_In in Hx.
    destruct Hx as [<- | []]. reflexivity.
  - reflexivity.
Defined.

(** C8, as stated, fails: with three candidates and a second delete that
    raises, the task raises and the third candidate, though reported, is
    never passed to [SESSION.delete]. *)
Lemma C8_counterexample_later_candidates_not_attempted :
  let run := cleanup_function (raises_on 2) true LOG_OBJECT all_candidates_world in
  reported_entries (new_logs all_candidates_world (fst run))
    = [log_row 1 738976; log_row 2 739020; log_row 3 739037] /\
  snd run = Raise SQLAlchemyError /\
  (CallDelete (log_row 3 739037) ∉ calls (fst run)).
Proof.
  cbv zeta. split; [|split].
  - vm_compute. reflexivity.
  - vm_compute. reflexivity.
  - rewrite list_elem_of_In. vm_compute. intros [H | [H | [H | []]]]; discriminate.
Qed.

(** ** C9: running a cleanup task again *)



(** ** C10: one query, one snapshot *)

(** C10 (as amended). A cleanup task that finds the published cutoff
    issues exactly one query; the list that query returned is what it
    reports and what it iterates for deletion: the rows passed to
    [SESSION.delete] are a prefix of that list, in the same order, none
    of it when deletion is disabled and all of it when deletion is
    enabled and the task completes; the count it logs is the length of
    that list. *)
Theorem C10_one_query_one_snapshot (delete_raises : entry -> bool) (en : bool)
    (p : db_object) (w : world) (cutoff : datetime) :
  dotless (col_key (age_check_column p)) = true ->
  pulled_max_date w = Some cutoff ->
  let run := cleanup_function delete_raises en p w in
  exists snapshot : list entry,
    snd (session_query (airflow_db_model p) (age_check_column p)
           (pulled_max_date w) w) = Ok snapshot /\
    query_calls (new_calls w (fst run)) =
      [(airflow_db_model p, age_check_column p, Some cutoff)] /\
    reported_entries (new_logs w (fst run)) = snapshot /\
    delete_calls (new_calls w (fst run)) `prefix_of` snapshot /\
    (en = false -> delete_calls (new_calls w (fst run)) = []) /\
    (en = true -> snd run = Ok tt ->
     delete_calls (new_calls w (fst run)) = snapshot) /\
    mkLog INFO [Lit "Process will be Deleting ";
                Str (OVal (PyInt (Z.of_nat (length snapshot)))); Lit " ";
                Str (OName (model_name (airflow_db_model p))); Lit "(s)"]
      ∈ new_logs w (fst run).
Proof.
  intros Hdot Hpull run.
  exists (candidates p (Some cutoff) (store w)).
  split; [rewrite Hpull; reflexivity|].
  destruct (cleanup_function_shape delete_raises en p w cutoff Hdot Hpull)
    as (attempted & later & rest & r & Hrun & Hrest & Hes & Hall & Hdry).
  assert (Hcalls : delete_calls (new_calls w (fst run)) = attempted).
  { unfold run. rewrite Hrun. cbn [fst]. erewrite new_calls_app by reflexivity.
    change (delete_calls (CallQuery _ _ _ :: map CallDelete ?l))
      with (delete_calls (map CallDelete l)).
    apply delete_calls_map. }
  split; [|split; [|split; [|split; [|split]]]].
  - unfold run. rewrite Hrun. cbn [fst]. erewrite new_calls_app by reflexivity.
    change (query_calls (CallQuery ?m ?c ?d :: map CallDelete ?l))
      with ((m, c, d) :: query_calls (map CallDelete l)).
    rewrite query_calls_map. reflexivity.
  - unfold run. rewrite (cleanup_reports delete_raises en p w Hdot), Hpull.
    reflexivity.
  - rewrite Hcalls, Hes. apply prefix_app_r. reflexivity.
  - intros Hen. rewrite Hcalls. apply Hdry. exact Hen.
  - intros Hen Hok. rewrite Hcalls, Hes.
    unfold run in Hok. rewrite Hrun in Hok. cbn [snd] in Hok.
    rewrite (Hall Hok Hen). symmetry. apply app_nil_r.
  - unfold run. rewrite Hrun. cbn [fst]. erewrite new_logs_app by reflexivity.
    unfold cleanup_report. rewrite !elem_of_app. left. right. right. right.
    apply list_elem_of_In. left. reflexivity.
Qed.

(** C10, witness: the [Log] task over three candidates. *)
Lemma C10_one_query_one_snapshot_witness :
  exists snapshot : list entry,
    snd (session_query Log (mkColumn Log "dttm")
           (pulled_max_date all_candidates_world) all_candidates_world)
      = Ok snapshot /\
    query_calls
      (new_calls all_candidates_world
         (fst (cleanup_function never_raises true LOG_OBJECT all_candidates_world)))
      = [(Log, mkColumn Log "dttm", Some june_2024)] /\
    reported_entries
      (new_logs all_candidates_world
         (fst (cleanup_function never_raises true LOG_OBJECT all_candidates_world)))
      = snapshot /\
    delete_calls
      (new_calls all_candidates_world
         (fst (cleanup_function never_raises true LOG_OBJECT all_candidates_world)))
      `prefix_of` snapshot /\
    (true = false ->
     delete_calls
       (new_calls all_candidates_world
          (fst (cleanup_function never_raises true LOG_OBJECT all_candidates_world)))
     = []) /\
    (true = true ->
     snd (cleanup_function never_raises true LOG_OBJECT all_candidates_world) = Ok tt ->
     delete_calls
       (new_calls all_candidates_world
          (fst (cleanup_function never_raises true LOG_OBJECT all_candidates_world)))
     = snapshot) /\
    mkLog INFO [Lit "Process will be Deleting ";
                Str (OVal (PyInt (Z.of_nat (length snapshot)))); Lit " ";
                Str (OName "Log"); Lit "(s)"]
      ∈ new_logs all_candidates_world
          (fst (cleanup_function never_raises true LOG_OBJECT all_candidates_world)).
Proof.
  apply (C10_one_query_one_snapshot never_raises true LOG_OBJECT
           all_candidates_world june_2024).
  - reflexivity.
  - vm_compute. reflexivity.
Defined.

(** C10, as stated, fails: with three candidates and a second delete
    that raises, the rows passed to [SESSION.delete] are the first two,
    not the three that were reported. And a task that finds no published
    cutoff raises before it issues any query. *)
Lemma C10_counterexample_deletes_stop_short :
  let run := cleanup_function (raises_on 2) true LOG_OBJECT all_candidates_world in
  let unpublished_run :=
    cleanup_function never_raises true LOG_OBJECT (fresh_world scenario_rows) in
  reported_entries (new_logs all_candidates_world (fst run))
    = [log_row 1 738976; log_row 2 739020; log_row 3 739037] /\
  delete_calls (new_calls all_candidates_world (fst run))
    = [log_row 1 738976; log_row 2 739020] /\
  snd unpublished_run = Raise ArgumentError /\
  query_calls (new_calls (fresh_world scenario_rows) (fst unpublished_run)) = [].
Proof.
  cbv zeta. split; [|split; [|split]]; vm_compute; reflexivity.
Qed.

(** ** The wiring of the DAG *)

Lemma wire_unfold (registry : list db_object) (dag : DAG) :
  fold_left
    (fun dag db_object =>
       let cleanup := mkOperator (cleanup_task_id db_object) (Cleanup db_object) in
       mkDAG (dag_tasks dag ++ [cleanup])
             (dag_edges dag ++ [(task_id PRINT_CONFIGURATION_OPR, task_id cleanup)]))
    registry dag
  = mkDAG
      (dag_tasks dag ++
         map (fun o => mkOperator (cleanup_task_id o) (Cleanup o)) registry)
      (dag_edges dag ++
         map (fun o => (PRINT_CONFIGURATION_task_id, cleanup_task_id o)) registry).
Proof.
  revert dag. induction registry as [|o registry IH]; intros dag.
  - cbn [fold_left map]. rewrite !app_nil_r. destruct dag; reflexivity.
  - cbn [fold_left map]. rewrite IH. cbn [dag_tasks dag_edges task_id].
    rewrite <- !app_assoc. reflexivity.
Qed.



Lemma model_name_inj (m1 m2 : db_model) :
  model_name m1 = model_name m2 -> m1 = m2.
Proof. destruct m1, m2; intros H; try reflexivity; discriminate H. Qed.

Lemma cleanup_task_id_inj (o1 o2 : db_object) :
  cleanup_task_id o1 = cleanup_task_id o2 ->
  airflow_db_model o1 = airflow_db_model o2.
Proof.
  unfold cleanup_task_id. intros H. apply model_name_inj.
  cbn [String.append] in H. injection H as H. exact H.
Qed.

Lemma cleanup_task_id_not_print (o : db_object) :
  cleanup_task_id o <> PRINT_CONFIGURATION_task_id.
Proof. unfold cleanup_task_id. cbn [String.append]. discriminate. Qed.




(** ** C7: one run, one cutoff *)

(** What a cleanup task pulls only depends on the tables and on the date
    of the run. *)
Lemma pulled_of_store (w w' : world) (cutoff : datetime) :
  store w' = store w ++ [max_date_row w cutoff] ->
  execution_date w' = execution_date w ->
  pulled_max_date w' = Some cutoff.
Proof.
  intros Hs Hd. unfold pulled_max_date, max_date_row. rewrite Hs, Hd.
  apply xcom_get_one_pushed.
Qed.

Section RunInvariant.

Variable delete_raises : entry -> bool.
Variable en : bool.
Variable registry : list db_object.
Variable conf : pyval.
Variable w : world.
Hypothesis registry_dotless' :
  Forall (fun p => dotless (col_key (age_check_column p)) = true) registry.





End RunInvariant.



(** The scheduled run on 2024-06-01 tried in the sample order: the cutoff
    is 2024-05-02 and both cleanup tasks query with it; a cleanup task
    tried before the configuration task is not started. *)
Example sample_run_one_cutoff :
  query_calls
    (calls (run_world (dag_run never_raises true DAG_OBJ PyNone
                         (("cleanup_Log"%string, june_2024) :: sample_tries)
                         (fresh_world scenario_rows))))
  = [ (Log, mkColumn Log "dttm", Some (days 739007));
      (XCom, mkColumn XCom "execution_date", Some (days 739007)) ].
Proof. vm_compute. reflexivity. Qed.

(** * Further properties of the two tasks *)

(** ** The configuration task: frame and failures *)


(** X2. A configuration task that raises has published nothing: the
    tables, XCom among them, are as they were before the task, and so is
    what a cleanup task would pull. *)
Theorem print_configuration_raise_publishes_nothing (en : bool) (conf : pyval)
    (now : datetime) (w : world) (e : exn) :
  snd (print_configuration_function en conf now w) = Raise e ->
  store (fst (print_configuration_function en conf now w)) = store w /\
  pulled_max_date (fst (print_configuration_function en conf now w))
    = pulled_max_date w.
Proof.
  intros Hraise.
  destruct (print_configuration_cases en conf now w)
    as [(v & delta & Hv & Hdelta & Hrange & Hok) | (e' & _ & Hs & _ & Hd)].
  - rewrite Hok in Hraise. discriminate Hraise.
  - split; [exact Hs|]. unfold pulled_max_date. rewrite Hs, Hd. reflexivity.
Qed.

(** X2, witness. *)
Lemma print_configuration_raise_publishes_nothing_witness :
  store (fst (print_configuration_function true (conf_with (PyStr "abc")) june_2024
                (fresh_world scenario_rows))) = scenario_rows /\
  pulled_max_date
    (fst (print_configuration_function true (conf_with (PyStr "abc")) june_2024
            (fresh_world scenario_rows)))
  = pulled_max_date (fresh_world scenario_rows).
Proof.
  apply (print_configuration_raise_publishes_nothing true (conf_with (PyStr "abc"))
           june_2024 (fresh_world scenario_rows) TypeError).
  vm_compute. reflexivity.
Defined.

(** X3. A conf that is truthy but not a dict (a JSON list, string, number or
    [true]) has no [get]: the task raises [AttributeError]. *)
Theorem print_configuration_conf_not_a_dict (en : bool) (conf : pyval)
    (now : datetime) (w : world) :
  truthy conf = true ->
  (forall d, conf <> PyDict d) ->
  snd (print_configuration_function en conf now w) = Raise AttributeError.
Proof.
  intros Ht Hd.
  apply (print_configuration_bad_conf en conf now w AttributeError).
  unfold conf_value_of. rewrite Ht.
  destruct conf; try reflexivity. exfalso. apply (Hd d). reflexivity.
Qed.

(** X3, witness. *)
Lemma print_configuration_conf_not_a_dict_witness :
  snd (print_configuration_function true (PyList [PyInt 30]) june_2024
         (fresh_world [])) = Raise AttributeError.
Proof.
  apply (print_configuration_conf_not_a_dict true (PyList [PyInt 30]) june_2024
           (fresh_world [])).
  - reflexivity.
  - intros d H. discriminate.
Defined.

(** X4. A boolean under the key is a number of days for [timedelta]: [true]
    is one day and [false] is zero days; [false] is not taken for an
    absent override. *)
Theorem print_configuration_boolean_override (en : bool) (b : bool)
    (now : datetime) (w : world) :
  datetime_in_range now = true ->
  days 1 <= now ->
  publishes en (conf_with (PyBool b)) now w (now - days (if b then 1 else 0)).
Proof.
  intros Hnow Hday. pose proof (proj1 (in_range_bounds now) Hnow) as Hb.
  apply (publishes_value en (PyBool b) now (days (if b then 1 else 0)) _ w
           (conf_with_value _)); [reflexivity|].
  apply in_range_bounds.
  destruct b; unfold days, MICROSECONDS_PER_DAY in *; lia.
Qed.

(** X4, witness. *)
Lemma print_configuration_boolean_override_witness :
  publishes true (conf_with (PyBool false)) june_2024 (fresh_world [])
    (june_2024 - days 0).
Proof.
  apply (print_configuration_boolean_override true false june_2024 (fresh_world [])).
  - reflexivity.
  - vm_compute. discriminate.
Defined.

(** X5. For an integer override the task completes exactly when now minus
    that many days is a datetime the interpreter represents; otherwise it
    raises [OverflowError]. *)
Theorem print_configuration_integer_accepted_iff (en : bool) (n : Z)
    (now : datetime) (w : world) :
  datetime_in_range now = true ->
  (snd (print_configuration_function en (conf_with (PyInt n)) now w) = Ok tt
   <-> 0 <= now - days n < DATETIME_LIMIT) /\
  (snd (print_configuration_function en (conf_with (PyInt n)) now w)
     = Raise OverflowError
   <-> ~ 0 <= now - days n < DATETIME_LIMIT).
Proof.
  intros Hnow.
  destruct (datetime_in_range (now - days n)) eqn:Hcut.
  - pose proof (publishes_int en n now _ w (conf_with_value _) Hnow Hcut) as [Hok _].
    apply in_range_bounds in Hcut. rewrite Hok. split; split.
    + intros _. exact Hcut.
    + intros _. reflexivity.
    + intros H. discriminate H.
    + intros H. contradiction.
  - assert (Hnot : ~ 0 <= now - days n < DATETIME_LIMIT).
    { intros H. apply in_range_bounds in H. congruence. }
    assert (Hraise : snd (print_configuration_function en (conf_with (PyInt n)) now w)
                     = Raise OverflowError).
    { destruct (timedelta (PyInt n)) as [delta|e] eqn:Hdelta.
      - pose proof (timedelta_days n delta Hdelta) as ->.
        apply (print_configuration_overflow en _ (PyInt n) now (days n) w
                 (conf_with_value _) Hdelta Hcut).
      - assert (e = OverflowError) as ->.
        { cbn [timedelta] in Hdelta.
          destruct (Z.abs n <=? 999999999); [discriminate|].
          injection Hdelta as <-. reflexivity. }
        apply (print_configuration_bad_age en _ (PyInt n) now w OverflowError
                 (conf_with_value _) Hdelta). }
    rewrite Hraise. split; split.
    + intros H. discriminate H.
    + intros H. contradiction.
    + intros _. exact Hnot.
    + intros _. reflexivity.
Qed.

(** X5, witness. *)
Lemma print_configuration_integer_accepted_iff_witness :
  snd (print_configuration_function true (conf_with (PyInt 1000000000)) june_2024
         (fresh_world [])) = Raise OverflowError
  <-> ~ 0 <= june_2024 - days 1000000000 < DATETIME_LIMIT.
Proof.
  apply (print_configuration_integer_accepted_iff true 1000000000 june_2024
           (fresh_world [])).
  reflexivity.
Defined.

(** X6. An absent override and an explicit override of 30 publish the same
    cutoff. *)
Theorem default_is_override_30 (en : bool) (conf : pyval) (now cutoff : datetime)
    (w : world) :
  override_absent conf ->
  publishes en conf now w cutoff <->
  publishes en (conf_with (PyInt DEFAULT_MAX_DB_ENTRY_AGE_IN_DAYS)) now w cutoff.
Proof.
  intros Habsent. pose proof (override_absent_value conf Habsent) as Hv.
  pose proof (conf_with_value (PyInt DEFAULT_MAX_DB_ENTRY_AGE_IN_DAYS)) as Hv'.
  unfold publishes.
  destruct (datetime_in_range (now - days DEFAULT_MAX_DB_ENTRY_AGE_IN_DAYS)) eqn:Hcut.
  - rewrite (print_configuration_ok en conf PyNone now
               (days DEFAULT_MAX_DB_ENTRY_AGE_IN_DAYS)
               (now - days DEFAULT_MAX_DB_ENTRY_AGE_IN_DAYS) w Hv)
      by (try reflexivity; unfold datetime_sub; rewrite Hcut; reflexivity).
    rewrite (print_configuration_ok en _ (PyInt DEFAULT_MAX_DB_ENTRY_AGE_IN_DAYS) now
               (days DEFAULT_MAX_DB_ENTRY_AGE_IN_DAYS)
               (now - days DEFAULT_MAX_DB_ENTRY_AGE_IN_DAYS) w Hv')
      by (try reflexivity; unfold datetime_sub; rewrite Hcut; reflexivity).
    cbn [fst snd]. rewrite !(pulled_after_publish []). reflexivity.
  - rewrite (proj1 (print_configuration_overflow en conf PyNone now
               (days DEFAULT_MAX_DB_ENTRY_AGE_IN_DAYS) w Hv eq_refl Hcut)).
    rewrite (proj1 (print_configuration_overflow en _
               (PyInt DEFAULT_MAX_DB_ENTRY_AGE_IN_DAYS) now
               (days DEFAULT_MAX_DB_ENTRY_AGE_IN_DAYS) w Hv' eq_refl Hcut)).
    split; intros [H _]; discriminate.
Qed.

(** X6, witness. *)
Lemma default_is_override_30_witness :
  publishes true PyNone june_2024 (fresh_world []) (days 739007) <->
  publishes true (conf_with (PyInt DEFAULT_MAX_DB_ENTRY_AGE_IN_DAYS)) june_2024
    (fresh_world []) (days 739007).
Proof.
  apply (default_is_override_30 true PyNone june_2024 (days 739007) (fresh_world [])).
  left. reflexivity.
Defined.

(** ** The cleanup task: what it leaves alone *)

(** X7. When no cutoff was published ([xcom_pull] returns [None]) the
    comparison [age_check_column <= None] of line 130 raises
    [ArgumentError]: the task has logged its configuration and that it is
    running, and ends there, before any query, report or delete,
    whatever the switch. *)
Theorem cleanup_without_cutoff_raises (delete_raises : entry -> bool)
    (en : bool) (p : db_object) (w : world) :
  pulled_max_date w = None ->
  let run := cleanup_function delete_raises en p w in
  snd run = Raise ArgumentError /\
  new_calls w (fst run) = [] /\
  store (fst run) = store w /\
  reported_entries (new_logs w (fst run)) = [] /\
  last (new_logs w (fst run)) = Some (mkLog INFO [Lit "Running Cleanup Process..."]).
Proof.
  intros Hnone run. unfold run.
  rewrite (cleanup_no_cutoff delete_raises en p w Hnone). cbn [fst snd store].
  erewrite new_logs_app by reflexivity.
  split; [reflexivity|]. split; [apply new_calls_none; reflexivity|].
  split; [reflexivity|]. split; reflexivity.
Qed.

(** X7, witness: a cleanup task run on its own, before any configuration
    task of its run. *)
Lemma cleanup_without_cutoff_raises_witness :
  snd (cleanup_function never_raises true LOG_OBJECT (fresh_world scenario_rows))
  = Raise ArgumentError.
Proof.
  apply (cleanup_without_cutoff_raises never_raises true LOG_OBJECT
           (fresh_world scenario_rows)).
  reflexivity.
Defined.

(** The rows a cleanup task passes to [SESSION.delete] are candidates of
    its query. *)
Lemma cleanup_deletes_candidates (delete_raises : entry -> bool) (en : bool)
    (p : db_object) (w : world) (r : entry) :
  dotless (col_key (age_check_column p)) = true ->
  CallDelete r ∈ new_calls w (fst (cleanup_function delete_raises en p w)) ->
  r ∈ candidates p (pulled_max_date w) (store w).
Proof.
  intros Hdot. destruct (pulled_max_date w) as [cutoff|] eqn:Hpull.
  - destruct (cleanup_function_shape delete_raises en p w cutoff Hdot Hpull)
      as (attempted & later & rest & res & Hrun & _ & Hes & _).
    rewrite Hrun. cbn [fst]. erewrite new_calls_app by reflexivity.
    rewrite Hes. intros Hin. apply elem_of_cons in Hin as [Hin | Hin];
      [discriminate Hin|].
    apply list_elem_of_fmap in Hin as (x & Hx & Hin). injection Hx as ->.
    apply elem_of_app. left. exact Hin.
  - rewrite (cleanup_no_cutoff delete_raises en p w Hpull). cbn [fst].
    rewrite new_calls_none by reflexivity. intros Hin.
    apply elem_of_nil in Hin. contradiction.
Qed.

(** X8. A cleanup task never deletes a row that is not one of its
    candidates: a row of another model, a row with a NULL age attribute
    and a row dated after the cutoff are still there after the task and
    were never passed to [SESSION.delete], whatever the switch and
    whichever delete raises. It never adds a row either. *)
Theorem cleanup_keeps_non_candidates (delete_raises : entry -> bool) (en : bool)
    (p : db_object) (w : world) (r : entry) :
  dotless (col_key (age_check_column p)) = true ->
  r ∈ store w ->
  r ∉ candidates p (pulled_max_date w) (store w) ->
  r ∈ store (fst (cleanup_function delete_raises en p w)) /\
  (forall x, x ∈ store (fst (cleanup_function delete_raises en p w)) -> x ∈ store w) /\
  (CallDelete r ∉ new_calls w (fst (cleanup_function delete_raises en p w))).
Proof.
  intros Hdot Hin Hnot.
  destruct (cleanup_frame delete_raises en p w Hdot) as (Hstore & _).
  rewrite Hstore. split; [exact Hin|]. split; [intros x Hx; exact Hx|].
  intros Hcall. apply Hnot.
  apply (cleanup_deletes_candidates delete_raises en p w r Hdot Hcall).
Qed.

(** X8, witness: the row of 2024-05-15 is newer than the cutoff of a
    scheduled run on 2024-06-01 and stays. *)
Lemma cleanup_keeps_non_candidates_witness :
  log_row 2 739020
    ∈ store (fst (cleanup_function never_raises true LOG_OBJECT scheduled_world)).
Proof.
  refine (proj1 (cleanup_keeps_non_candidates never_raises true LOG_OBJECT
                   scheduled_world (log_row 2 739020) _ _ _)).
  - reflexivity.
  - apply list_elem_of_In. vm_compute. tauto.
  - rewrite list_elem_of_In. vm_compute. intros [H | []]. discriminate.
Defined.

(** X9. The date a report line prints is the value of the age attribute the
    query compared with the cutoff: for every candidate the log has the
    line with the row and its age, and that age is at most the cutoff. *)
Theorem cleanup_reports_compared_age (delete_raises : entry -> bool) (en : bool)
    (p : db_object) (w : world) :
  dotless (col_key (age_check_column p)) = true ->
  Forall
    (fun e =>
       exists t cutoff,
         pulled_max_date w = Some cutoff /\
         entry_dict e !! col_key (age_check_column p) = Some (Some t) /\
         t <= cutoff /\
         mkLog INFO [Lit "	Entry: "; Str (OEntry e); Lit ", Date: ";
                     Str (ODatetime (Some t))]
           ∈ new_logs w (fst (cleanup_function delete_raises en p w)))
    (candidates p (pulled_max_date w) (store w)).
Proof.
  intros Hdot. apply Forall_forall. intros e He.
  pose proof He as Hcand.
  apply elem_of_candidates in Hcand as (_ & _ & t & cutoff & Hd & Ht & Hle).
  exists t, cutoff. split; [exact Hd|]. split; [exact Ht|]. split; [exact Hle|].
  rewrite Hd in He.
  destruct (cleanup_function_shape delete_raises en p w cutoff Hdot Hd)
    as (attempted & later & rest & r & Hrun & _).
  rewrite Hrun. cbn [fst]. erewrite new_logs_app by reflexivity.
  unfold cleanup_report. rewrite !elem_of_app. left. right. right. left.
  apply list_elem_of_fmap. exists e. split; [|exact He].
  unfold report_line.
  exact (f_equal
           (fun d => mkLog INFO [Lit "	Entry: "; Str (OEntry e); Lit ", Date: ";
                                 Str (ODatetime d)])
           (eq_sym (f_equal (default None) Ht))).
Qed.

(** X9, witness. *)
Lemma cleanup_reports_compared_age_witness :
  Forall
    (fun e =>
       exists t cutoff,
         pulled_max_date all_candidates_world = Some cutoff /\
         entry_dict e !! col_key (age_check_column LOG_OBJECT) = Some (Some t) /\
         t <= cutoff /\
         mkLog INFO [Lit "	Entry: "; Str (OEntry e); Lit ", Date: ";
                     Str (ODatetime (Some t))]
           ∈ new_logs all_candidates_world
               (fst (cleanup_function never_raises true LOG_OBJECT
                       all_candidates_world)))
    (candidates LOG_OBJECT (pulled_max_date all_candidates_world)
       (store all_candidates_world)).
Proof.
  apply (cleanup_reports_compared_age never_raises true LOG_OBJECT
           all_candidates_world).
  reflexivity.
Defined.

(** ** The wiring of the DAG *)

(** X10. The loop gives the DAG one cleanup task per registry item, each with
    [print_configuration] as its only upstream task and with no edge
    between cleanup tasks; when the registry names each model once, all
    task ids of the DAG are distinct. *)
Theorem wire_tasks_and_edges (registry : list db_object) :
  map callable (dag_tasks (wire registry))
    = PrintConfiguration :: map Cleanup registry /\
  (forall up down : string,
     (up, down) ∈ dag_edges (wire registry) <->
     up = PRINT_CONFIGURATION_task_id /\
     exists o, o ∈ registry /\ down = cleanup_task_id o) /\
  (NoDup (map airflow_db_model registry) ->
   NoDup (map task_id (dag_tasks (wire registry)))).
Proof.
  unfold wire. rewrite wire_unfold. cbn [dag_tasks dag_edges app].
  split; [|split].
  - cbn [map callable PRINT_CONFIGURATION_OPR]. f_equal.
    rewrite map_map. reflexivity.
  - intros up down. rewrite list_elem_of_In, in_map_iff. split.
    + intros (o & Ho & Hin). injection Ho as <- <-.
      split; [reflexivity|]. exists o. split; [|reflexivity].
      apply list_elem_of_In. exact Hin.
    + intros (-> & o & Hin & ->). exists o. split; [reflexivity|].
      apply list_elem_of_In. exact Hin.
  - intros Hnodup. cbn [map task_id PRINT_CONFIGURATION_OPR]. rewrite map_map.
    cbn [task_id]. apply NoDup_cons. split.
    + rewrite list_elem_of_In, in_map_iff. intros (o & Ho & _).
      exact (cleanup_task_id_not_print o Ho).
    + induction registry as [|o registry IH]; [constructor|].
      cbn [map] in *. apply NoDup_cons in Hnodup as [Hnotin Hnodup].
      apply NoDup_cons. split; [|apply IH; exact Hnodup].
      rewrite list_elem_of_In, in_map_iff. intros (o' & Ho' & Hin).
      apply Hnotin. apply cleanup_task_id_inj in Ho'. rewrite <- Ho'.
      apply list_elem_of_In, in_map_iff. exists o'. split; [reflexivity|exact Hin].
Qed.

(** X10, witness: the registry of the file names each model once, so the seven task
    ids of [DAG_OBJ] are distinct. *)
Lemma wire_tasks_and_edges_witness :
  NoDup (map task_id (dag_tasks DAG_OBJ)).
Proof.
  apply (wire_tasks_and_edges DATABASE_OBJECTS).
  cbn [map DATABASE_OBJECTS airflow_db_model].
  repeat (apply NoDup_cons; split;
          [rewrite list_elem_of_In; cbn [In]; intuition discriminate|]).
  constructor.
Defined.

(** ** The cleanup tasks of a run do not interfere *)




(** ** The cleanup of XCom and the published cutoff *)

(** X13. XCom is one of the tables the DAG cleans, and the row that
    carries the cutoff of the run is one of its rows: the [XCom] cleanup
    task reports it as a candidate exactly when the [execution_date] of
    the run is not after the cutoff, and then, with deletion enabled, a
    task that completes has passed it to [SESSION.delete]. *)
Theorem cleanup_XCom_selects_published_row (delete_raises : entry -> bool)
    (en : bool) (conf : pyval) (now : datetime) (w : world) (cutoff : datetime) :
  publishes en conf now w cutoff ->
  let configured := fst (print_configuration_function en conf now w) in
  let run := cleanup_function delete_raises en XCOM_OBJECT configured in
  XCOM_OBJECT ∈ DATABASE_OBJECTS /\
  max_date_row w cutoff ∈ store configured /\
  (max_date_row w cutoff ∈ reported_entries (new_logs configured (fst run))
   <-> execution_date w <= cutoff) /\
  (en = true -> snd run = Ok tt -> execution_date w <= cutoff ->
   CallDelete (max_date_row w cutoff) ∈ new_calls configured (fst run)).
Proof.
  intros Hpub configured run.
  assert (Hdot : dotless (col_key (age_check_column XCOM_OBJECT)) = true)
    by reflexivity.
  assert (Hw : store configured = store w ++ [max_date_row w cutoff] /\
               execution_date configured = execution_date w).
  { destruct Hpub as [Hok Hpull]. unfold configured.
    destruct (print_configuration_cases en conf now w)
      as [(v & delta & Hv & Hdelta & Hrange & Hrun) | (e & Hraise & _)].
    - rewrite Hrun in Hpull. cbn [fst] in Hpull.
      rewrite (pulled_after_publish []) in Hpull. injection Hpull as <-.
      rewrite Hrun. split; reflexivity.
    - rewrite Hraise in Hok. discriminate Hok. }
  destruct Hw as [Hs Hd].
  pose proof (pulled_of_store w configured cutoff Hs Hd) as Hpull.
  assert (Hcand : max_date_row w cutoff
                    ∈ candidates XCOM_OBJECT (Some cutoff) (store configured)
                  <-> execution_date w <= cutoff).
  { rewrite elem_of_candidates. split.
    - intros (_ & _ & t & c & Hc & Ht & Hle). injection Hc as <-.
      cbn [XCOM_OBJECT age_check_column col_key] in Ht.
      assert (Hdate : entry_dict (max_date_row w cutoff) !! "execution_date"%string
                      = Some (Some (execution_date w))) by reflexivity.
      pose proof (eq_trans (eq_sym Hdate) Ht) as Heq. injection Heq as <-.
      exact Hle.
    - intros Hle. split; [rewrite Hs; apply elem_of_app; right; left|].
      split; [reflexivity|].
      exists (execution_date w), cutoff. split; [reflexivity|].
      split; [reflexivity | exact Hle]. }
  split; [apply list_elem_of_In; cbn; tauto|].
  split; [rewrite Hs; apply elem_of_app; right; left|].
  split.
  - unfold run. rewrite (cleanup_reports delete_raises en XCOM_OBJECT configured Hdot).
    rewrite Hpull. exact Hcand.
  - intros Hen Hok Hle.
    destruct (cleanup_function_shape delete_raises en XCOM_OBJECT configured cutoff
                Hdot Hpull)
      as (attempted & later & rest & r & Hrun & _ & Hes & Hall & _).
    unfold run in *. rewrite Hrun in *. cbn [fst snd] in *.
    erewrite new_calls_app by reflexivity.
    rewrite (Hall Hok Hen), app_nil_r in Hes.
    apply elem_of_cons. right. apply list_elem_of_fmap.
    exists (max_date_row w cutoff). split; [reflexivity|].
    rewrite <- Hes. apply Hcand. exact Hle.
Qed.

(** X13, witness: an override of 0 on 2024-06-01 for the run of
    2024-05-31; the row that carries the cutoff is itself a candidate. *)
Lemma cleanup_XCom_selects_published_row_witness :
  max_date_row (fresh_world scenario_rows) june_2024 ∈ store all_candidates_world.
Proof.
  apply (cleanup_XCom_selects_published_row never_raises true (conf_with (PyInt 0))
           june_2024 (fresh_world scenario_rows) june_2024).
  split; vm_compute; reflexivity.
Defined.
(** ** The id of the DAG *)

Lemma split_slashless (s : string) :
  slashless s = true -> split "/" s = [s].
Proof.
  induction s as [|c s IH]; cbn [slashless split]; [reflexivity|].
  intros H. apply andb_prop in H as [Hc Hs].
  apply negb_true_iff in Hc. rewrite Hc, (IH Hs). reflexivity.
Qed.

Lemma append_nil_l (s : string) : ("" ++ s)%string = s.
Proof. reflexivity. Qed.

Lemma append_cons (c : ascii) (a b : string) :
  (String c a ++ b)%string = String c (a ++ b).
Proof. reflexivity. Qed.

(** Splitting at a separator that is there: the fields of what follows it
    come last. *)
Lemma split_after_sep (sep : ascii) (a b : string) :
  exists f front,
    split sep (a ++ String sep b)%string = (f :: front) ++ split sep b.
Proof.
  induction a as [|c a (f & front & IH)];
    rewrite ?append_nil_l, ?append_cons; cbn [split].
  - rewrite Ascii.eqb_refl. exists EmptyString, []. reflexivity.
  - destruct (Ascii.eqb c sep).
    + exists EmptyString, (f :: front). rewrite IH. reflexivity.
    + rewrite IH. exists (String c f), front. reflexivity.
Qed.

Lemma basename_of_path (dir name : string) :
  slashless name = true -> basename (dir ++ String "/" name)%string = name.
Proof.
  intros Hname. unfold basename.
  destruct (split_after_sep "/" dir name) as (f & front & ->).
  rewrite last_app, (split_slashless name Hname). reflexivity.
Qed.

Lemma basename_of_name (name : string) :
  slashless name = true -> basename name = name.
Proof.
  intros Hname. unfold basename. rewrite (split_slashless name Hname). reflexivity.
Qed.

Lemma append_empty_r (s : string) : (s ++ "")%string = s.
Proof.
  induction s as [|c s IH]; [reflexivity|]. rewrite append_cons, IH. reflexivity.
Qed.

(** Nothing that starts with a dot is found inside a name without dots. *)
Lemma replace_from_dotless (old' new stem tail : string) :
  dotless stem = true ->
  replace_from (String "." old') new 0 (stem ++ tail)%string
  = (stem ++ replace_from (String "." old') new 0 tail)%string.
Proof.
  intros Hstem. induction stem as [|c stem IH]; [reflexivity|].
  cbn [dotless] in Hstem. apply andb_prop in Hstem as [Hc Hstem].
  apply negb_true_iff in Hc.
  rewrite !append_cons. cbn [replace_from String.prefix].
  destruct (ascii_dec "." c) as [<-|_]; [discriminate Hc|].
  rewrite (IH Hstem). reflexivity.
Qed.

(** X12. [DAG_ID] is the name of the file without its directory and without
    its [.py] or [.pyc] extension, for every file name without further
    dots. *)
Theorem DAG_ID_is_the_file_stem (dir stem : string) :
  dotless stem = true ->
  slashless stem = true ->
  DAG_ID (dir ++ "/" ++ stem ++ ".py")%string = stem /\
  DAG_ID (dir ++ "/" ++ stem ++ ".pyc")%string = stem /\
  DAG_ID (stem ++ ".py")%string = stem.
Proof.
  intros Hdot Hslash.
  assert (Hext : forall ext, slashless ext = true ->
                             slashless (stem ++ ext)%string = true).
  { intros ext Hext. induction stem as [|c stem IH]; [exact Hext|].
    rewrite append_cons. cbn [dotless slashless] in *.
    apply andb_prop in Hdot as [_ Hdot]. apply andb_prop in Hslash as [Hc Hslash].
    rewrite Hc, (IH Hdot Hslash). reflexivity. }
  assert (Hpy : replace ".py" "" (replace ".pyc" "" (stem ++ ".py")%string) = stem).
  { unfold replace. rewrite (replace_from_dotless _ _ stem ".py" Hdot).
    change (replace_from ".pyc" "" 0 ".py") with ".py"%string.
    rewrite (replace_from_dotless _ _ stem ".py" Hdot).
    change (replace_from ".py" "" 0 ".py") with ""%string.
    apply append_empty_r. }
  assert (Hpyc : replace ".py" "" (replace ".pyc" "" (stem ++ ".pyc")%string) = stem).
  { unfold replace. rewrite (replace_from_dotless _ _ stem ".pyc" Hdot).
    change (replace_from ".pyc" "" 0 ".pyc") with ""%string.
    rewrite (replace_from_dotless _ _ stem "" Hdot).
    change (replace_from ".py" "" 0 "") with ""%string.
    apply append_empty_r. }
  unfold DAG_ID. rewrite !append_cons, !append_nil_l.
  rewrite (basename_of_path dir (stem ++ ".py")) by (apply Hext; reflexivity).
  rewrite (basename_of_path dir (stem ++ ".pyc")) by (apply Hext; reflexivity).
  rewrite (basename_of_name (stem ++ ".py")) by (apply Hext; reflexivity).
  split; [exact Hpy|]. split; [exact Hpyc | exact Hpy].
Qed.

(** X12, witness: this file, as source and as compiled module. *)
Lemma DAG_ID_is_the_file_stem_witness :
  DAG_ID "/root/airflow/dags/airflow_db_cleanup.py" = "airflow_db_cleanup"%string /\
  DAG_ID "/root/airflow/dags/airflow_db_cleanup.pyc" = "airflow_db_cleanup"%string /\
  DAG_ID "airflow_db_cleanup.py" = "airflow_db_cleanup"%string.
Proof.
  apply (DAG_ID_is_the_file_stem "/root/airflow/dags" "airflow_db_cleanup").
  - reflexivity.
  - reflexivity.
Defined.

(** ** [timedelta] on floats: samples *)

(** Half a day is twelve hours; a fraction of a day is rounded to the
    microsecond, a tie going to the even microsecond; NaN and the
    infinities are refused, and so is a float of more than 999999999
    days. *)
Example timedelta_float_samples :
  timedelta (PyFloat 0.5) = Ok 43200000000 /\
  timedelta (PyFloat (-1.5)) = Ok (-129600000000) /\
  timedelta (PyFloat 30) = timedelta (PyInt 30) /\
  timedelta (PyFloat 0x1.9739fdcab50dcp-38) = Ok 0 /\
  timedelta (PyFloat 0x1.316b7e5807ca5p-36) = Ok 2 /\
  timedelta (PyFloat PrimFloat.nan) = Raise ValueError /\
  timedelta (PyFloat PrimFloat.infinity) = Raise OverflowError /\
  timedelta (PyFloat 1e10) = Raise OverflowError.
Proof. repeat split; vm_compute; reflexivity. Qed.
